(** * pysg.drawing.container: containers that lay out drawables

    A shallow embedding of [src/pysg/drawing/container.py].

    Python objects are records, attribute writes are record updates, and a
    method is a computation over the object it is called on (or over the
    screen, for [draw]) that either returns or raises.  A raised
    exception leaves behind the state reached so far, as in Python. *)

From Stdlib Require Import ZArith List String Bool Lia QArith DecimalString.
From Stdlib Require FinFun.
Import ListNotations.
Open Scope string_scope.
Open Scope list_scope.
Open Scope Z_scope.

(** ** Exceptions, and computations that may raise *)

(** The exceptions the module can raise: [ValueError] from the validating
    setters, a bare [Exception] from [enter]/[leave], and the
    [ZeroDivisionError] of the division in the grid's [draw]. *)
Inductive PyError : Type :=
| ValueError (msg : string)
| Exception_ (msg : string)
| ZeroDivisionError.

Inductive Result (A : Type) : Type :=
| Ok (a : A)
| Raise (e : PyError).
Arguments Ok {A} a.
Arguments Raise {A} e.

(** A computation over a mutable state [S]: its outcome and the state it
    leaves. *)
Definition M (S A : Type) : Type := S -> Result A * S.

Definition ret {S A} (a : A) : M S A := fun s => (Ok a, s).
Definition raise {S A} (e : PyError) : M S A := fun s => (Raise e, s).
Definition bind {S A B} (m : M S A) (f : A -> M S B) : M S B :=
  fun s => match m s with
           | (Ok a, s') => f a s'
           | (Raise e, s') => (Raise e, s')
           end.
Definition get {S} : M S S := fun s => (Ok s, s).
Definition modify {S} (f : S -> S) : M S unit := fun s => (Ok tt, f s).

Declare Scope py_scope.
Delimit Scope py_scope with py.
Notation "x <- m ;; k" := (bind m (fun x => k))
  (at level 61, m at next level, right associativity) : py_scope.
Notation "m ;; k" := (bind m (fun _ => k))
  (at level 61, right associativity) : py_scope.
Open Scope py_scope.

(** [for a in l: body(a)] *)
Fixpoint for_each {S A} (l : list A) (body : A -> M S unit) : M S unit :=
  match l with
  | [] => ret tt
  | a :: l' => body a ;; for_each l' body
  end.

(** [enumerate(l)], counting from [i]. *)
Fixpoint enumerate_from {A} (i : Z) (l : list A) : list (Z * A) :=
  match l with
  | [] => []
  | a :: l' => (i, a) :: enumerate_from (i + 1) l'
  end.
Definition enumerate {A} (l : list A) : list (Z * A) := enumerate_from 0 l.

(** [f"{n}"] for an integer [n]. *)
Definition str (n : Z) : string := NilZero.string_of_int (Z.to_int n).

(** ** Insertion-ordered dictionaries with string keys

    [self._objects] is a [dict]: iteration follows insertion order, a write
    to a present key replaces the value in place, a write to an absent key
    appends. *)
Module PyDict.
Set Implicit Arguments.
Section Dict.
Variable V : Type.

Definition t : Type := list (string * V).

    (** [k in d] *)
Definition contains (k : string) (d : t) : bool :=
      existsb (fun kv => String.eqb k (fst kv)) d.

    (** [d[k] = v] *)
Fixpoint set (k : string) (v : V) (d : t) : t :=
      match d with
      | [] => [(k, v)]
      | (k', v') :: d' =>
          if String.eqb k k' then (k, v) :: d' else (k', v') :: set k v d'
      end.

    (** [del d[k]] (for a present key). *)
Fixpoint del (k : string) (d : t) : t :=
      match d with
      | [] => []
      | (k', v') :: d' =>
          if String.eqb k k' then d' else (k', v') :: del k d'
      end.

    (** [d.values()] *)
Definition values (d : t) : list V := map snd d.

    (** [len(d)] *)
Definition len (d : t) : Z := Z.of_nat (List.length d).
End Dict.
Unset Implicit Arguments.
End PyDict.

(** ** Enumerations of the module *)

Module GAlign.
Inductive t : Type :=
  | NoAlign | Top | TopLeft | TopRight | Center
  | Left | Right | Bottom | BottomLeft | BottomRight.

Definition eqb (a b : t) : bool :=
    match a, b with
    | NoAlign, NoAlign | Top, Top | TopLeft, TopLeft | TopRight, TopRight
    | Center, Center | Left, Left | Right, Right | Bottom, Bottom
    | BottomLeft, BottomLeft | BottomRight, BottomRight => true
    | _, _ => false
    end.
End GAlign.

Module GFillDirection.
Inductive t : Type :=
  | TopLeft | TopRight | Left | Right | BottomLeft | BottomRight.

Definition eqb (a b : t) : bool :=
    match a, b with
    | TopLeft, TopLeft | TopRight, TopRight | Left, Left | Right, Right
    | BottomLeft, BottomLeft | BottomRight, BottomRight => true
    | _, _ => false
    end.
End GFillDirection.

Module GOverflow.
Inductive t : Type := Visible | Hidden.

Definition eqb (a b : t) : bool :=
    match a, b with
    | Visible, Visible | Hidden, Hidden => true
    | _, _ => false
    end.
End GOverflow.

(** ** Collaborators imported by the module *)

(** Modelled from the spec: [shape.py] ([GShapeType], [GShape]) is not in
    src.  The spec gives the shape kinds as the closed set Square, Ellipse. *)
Module GShapeType.
Inductive t : Type := Square | Ellipse.

Definition name (k : t) : string :=
    match k with Square => "Square" | Ellipse => "Ellipse" end.

  (** [list(GShapeType)] *)
Definition members : list t := [Square; Ellipse].
End GShapeType.

(** What a [shape_type] attribute holds at run time. The annotation is not
    enforced, so besides a member of [GShapeType] it can be any object with a
    [name], such as a member of some other enumeration. *)
Inductive ShapeKind : Type :=
| Member (k : GShapeType.t)
| Foreign (name : string).

Definition kind_name (k : ShapeKind) : string :=
  match k with
  | Member m => GShapeType.name m
  | Foreign n => n
  end.

(** [k == GShapeType.Square]: enum members compare by identity. *)
Definition is_Square (k : ShapeKind) : bool :=
  match k with Member GShapeType.Square => true | _ => false end.

Definition Color : Type := (Z * Z * Z)%type.

(** Modelled from the spec: [color.py] ([DefaultColors]) is not in src.  The
    spec calls the frame colour and the default shape's colour white. *)
Definition DefaultColors_White : Color := (255, 255, 255).

(** Modelled from the spec: [shape.py] is not in src.  The spec's
    ShapeDescriptor: kind, size, border_size, color, in the order of the call
    [GShape(GShapeType.Square, 10, 2, colour)] of [_set_shape]. *)
Module GShape.
Record t : Type := GShape {
    shape_type : ShapeKind;
    size : Z;
    border_size : Z;
    color : Color
  }.

  (** [s.border_size = b] *)
Definition set_border_size (b : Z) (s : t) : t :=
    GShape (shape_type s) (size s) b (color s).
End GShape.

(** Modelled from the spec: [drawable.py] ([GDrawable]) is not in src.  A
    drawable has an identity number and a shape. [addr] is [id(obj)], the
    run-time identity of the Python object, under which a container files
    it.  Objects are held by value: no statement below depends on two
    holders of one shape or drawable seeing each other's writes. *)
Module GDrawable.
Record t : Type := GDrawable {
    addr : Z;
    id : Z;
    shape : GShape.t
  }.
End GDrawable.

(** ** The pygame calls the module makes

    [screen] is modelled by what [draw] can tell of it: the rectangle each
    drawing call on it returns, and the drawing calls made on it, oldest
    first.  pygame returns the rectangle that bounds the pixels a call
    changes: the rectangle given cut down to the surface.  It depends on
    the call and on the size and clip area of the surface, which [draw]
    never changes, so a surface carries it as a function of the call, and no
    more is assumed of it. *)
Module pygame.
Record Rect : Type := mkRect { left : Z; top : Z; width : Z; height : Z }.

(** [Rect.center]: integer halves, as pygame computes them. *)
Definition center (r : Rect) : Z * Z :=
  (left r + Z.quot (width r) 2, top r + Z.quot (height r) 2).

Inductive DrawCall : Type :=
| draw_rect_call (color : Color) (rect : Rect) (border : Z)
| draw_ellipse_call (color : Color) (rect : Rect) (border : Z)
| blit_call (text : string) (text_color : Color) (dest : Q * Q).

Record Surface : Type := mkSurface {
  returned : DrawCall -> Rect;
  calls : list DrawCall
}.

(** The surface after further calls. *)
Definition add_all (screen : Surface) (cs : list DrawCall) : Surface :=
  mkSurface (returned screen) (calls screen ++ cs).

(** [pygame.draw.rect(screen, color, rect, width)] *)
Definition draw_rect (color : Color) (rect : Rect) (border : Z)
  : M Surface Rect :=
  fun screen =>
    (Ok (returned screen (draw_rect_call color rect border)),
     add_all screen [draw_rect_call color rect border]).

(** [pygame.draw.ellipse(screen, color, rect, width)] *)
Definition draw_ellipse (color : Color) (rect : Rect) (border : Z)
  : M Surface Rect :=
  fun screen =>
    (Ok (returned screen (draw_ellipse_call color rect border)),
     add_all screen [draw_ellipse_call color rect border]).

(** [screen.blit(font.render(text, antialias, color), dest)]: the font is
    the one every constructor loads, [SysFont("Comic Sans MS", 10)], and is
    never reassigned. *)
Definition blit_text (text : string) (text_color : Color) (dest : Q * Q)
  : M Surface unit :=
  fun screen => (Ok tt, add_all screen [blit_call text text_color dest]).
End pygame.

(** [c - (biggest_size / 4)]: true division of integers, exact on the
    quarters it produces. *)
Definition minus_quarter (c biggest_size : Z) : Q :=
  Qred (inject_Z c - inject_Z biggest_size / 4).

(** Descending insertion sort: [l.sort(reverse=True)] on integers. *)
Fixpoint insert_desc (a : Z) (l : list Z) : list Z :=
  match l with
  | [] => [a]
  | b :: l' => if b <? a then a :: l else b :: insert_desc a l'
  end.
Fixpoint sort_desc (l : list Z) : list Z :=
  match l with
  | [] => []
  | a :: l' => insert_desc a (sort_desc l')
  end.

(** Modelled from the spec: [util.py] ([array_chunks]) is not in src.  The
    spec: it splits a sequence into fixed-size groups, in order, the last
    group possibly short; a group size that is not positive gives the
    degenerate, empty set of chunks. *)
Fixpoint chunks_upto {A} (steps n : nat) (l : list A) : list (list A) :=
  match steps, l with
  | O, _ | _, [] => []
  | S steps', _ => firstn n l :: chunks_upto steps' n (skipn n l)
  end.
Definition array_chunks {A} (l : list A) (n : Z) : list (list A) :=
  if n <=? 0 then [] else chunks_upto (List.length l) (Z.to_nat n) l.

(** ** GContainerBase *)
Module GContainerBase.
Record t : Type := mk {
  _id : Z;
  _objects : PyDict.t GDrawable.t;
  _size : Z * Z;
  _position : Z * Z;
  _shape : GShape.t;
  _align : GAlign.t;
  _fill_direction : GFillDirection.t;
  _overflow : GOverflow.t;
  _padding : Z;
  _spacing : Z
}.

(** Attribute writes [self._x = v]. *)
Definition set__objects v (self : t) : t :=
  mk (_id self) v (_size self) (_position self) (_shape self) (_align self)
     (_fill_direction self) (_overflow self) (_padding self) (_spacing self).
Definition set__size v (self : t) : t :=
  mk (_id self) (_objects self) v (_position self) (_shape self) (_align self)
     (_fill_direction self) (_overflow self) (_padding self) (_spacing self).
Definition set__position v (self : t) : t :=
  mk (_id self) (_objects self) (_size self) v (_shape self) (_align self)
     (_fill_direction self) (_overflow self) (_padding self) (_spacing self).
Definition set__shape v (self : t) : t :=
  mk (_id self) (_objects self) (_size self) (_position self) v (_align self)
     (_fill_direction self) (_overflow self) (_padding self) (_spacing self).
Definition set__align v (self : t) : t :=
  mk (_id self) (_objects self) (_size self) (_position self) (_shape self) v
     (_fill_direction self) (_overflow self) (_padding self) (_spacing self).
Definition set__fill_direction v (self : t) : t :=
  mk (_id self) (_objects self) (_size self) (_position self) (_shape self)
     (_align self) v (_overflow self) (_padding self) (_spacing self).
Definition set__overflow v (self : t) : t :=
  mk (_id self) (_objects self) (_size self) (_position self) (_shape self)
     (_align self) (_fill_direction self) v (_padding self) (_spacing self).
Definition set__padding v (self : t) : t :=
  mk (_id self) (_objects self) (_size self) (_position self) (_shape self)
     (_align self) (_fill_direction self) (_overflow self) v (_spacing self).
Definition set__spacing v (self : t) : t :=
  mk (_id self) (_objects self) (_size self) (_position self) (_shape self)
     (_align self) (_fill_direction self) (_overflow self) (_padding self) v.

(** [_set_shape] (lines 189-192) *)
Definition _set_shape (s : option GShape.t) : GShape.t :=
  match s with
  | None => GShape.GShape (Member GShapeType.Square) 10 2 DefaultColors_White
  | Some s => s
  end.

(** [__init__] (lines 47-67).  The state threaded through is the class-wide
    counter [_object_id_counter = count(0)]: the next number it hands out. *)
Definition __init__ (size position : Z * Z) (shape : option GShape.t)
    (align : GAlign.t) (fill_direction : GFillDirection.t)
    (overflow : GOverflow.t) (padding spacing : Z) : M Z t :=
  fun counter =>
    (Ok (mk counter [] size position (_set_shape shape) align fill_direction
            overflow padding spacing),
     counter + 1).

(** [__len__] *)
Definition __len__ (self : t) : Z := PyDict.len (_objects self).

(** *** Properties (lines 74-173) *)

Definition id (self : t) : Z := _id self.

(** The [size] getter, line 80: [return self._position]. *)
Definition size (self : t) : Z * Z := _position self.

Definition size_setter (s : Z * Z) : M t unit :=
  if (fst s <=? 0) || (snd s <=? 0)
  then raise (ValueError "Negative or zero values supplied to size")
  else modify (set__size s).

Definition position (self : t) : Z * Z := _position self.

Definition position_setter (p : Z * Z) : M t unit :=
  self <- get ;;
  (if GAlign.eqb (_align self) GAlign.NoAlign
   then if (fst p <? 0) || (snd p <? 0)
        then raise (ValueError "Negative values supplied to position")
        else ret tt
   else ret tt) ;;
  modify (set__position p).

Definition shape (self : t) : GShape.t := _shape self.

(** The in-place write [s.border_size = -1] shows in the shape that is then
    stored. *)
Definition shape_setter (s : GShape.t) : M t unit :=
  let vals := map GShapeType.name GShapeType.members in
  if negb (existsb (String.eqb (kind_name (GShape.shape_type s))) vals)
  then raise (ValueError "Invalid shape type supplied")
  else
    let s := if GShape.border_size s <? -1
             then GShape.set_border_size (-1) s else s in
    modify (set__shape s).

Definition align (self : t) : GAlign.t := _align self.

(** The [isinstance] and membership tests of the enum-valued setters cannot
    fail on a value of the enumeration's type. *)
Definition align_setter (a : GAlign.t) : M t unit :=
  modify (set__align a).

Definition fill_direction (self : t) : GFillDirection.t :=
  _fill_direction self.

Definition overflow (self : t) : GOverflow.t := _overflow self.

Definition overflow_setter (o : GOverflow.t) : M t unit :=
  modify (set__overflow o).

Definition padding (self : t) : Z := _padding self.

Definition padding_setter (p : Z) : M t unit :=
  if p <? 0 then raise (ValueError "Negative padding supplied")
  else modify (set__padding p).

Definition spacing (self : t) : Z := _spacing self.

Definition spacing_setter (s : Z) : M t unit :=
  if s <? 0 then raise (ValueError "Negative spacing supplied")
  else modify (set__spacing s).

(** *** Main functionality (lines 177-185) *)

(** [f"{id(obj)}"] *)
Definition key (obj : GDrawable.t) : string := str (GDrawable.addr obj).

Definition enter (obj : GDrawable.t) : M t unit :=
  self <- get ;;
  if PyDict.contains (key obj) (_objects self)
  then raise (Exception_ "Object already in this container")
  else modify (set__objects (PyDict.set (key obj) obj (_objects self))).

Definition leave (obj : GDrawable.t) : M t unit :=
  self <- get ;;
  if negb (PyDict.contains (key obj) (_objects self))
  then raise (Exception_ "Object not in this container")
  else modify (set__objects (PyDict.del (key obj) (_objects self))).

(** *** What the three [draw] methods share *)

(** Lines 235-248: the frame, always in white. *)
Definition draw_frame (self : t) : M pygame.Surface unit :=
  let '(x, y) := _position self in
  let '(width, height) := _size self in
  (if is_Square (GShape.shape_type (_shape self))
   then pygame.draw_rect DefaultColors_White
          (pygame.mkRect x y width height) (GShape.border_size (shape self))
   else pygame.draw_ellipse DefaultColors_White
          (pygame.mkRect x y width height) (GShape.border_size (shape self))) ;;
  ret tt.

(** Lines 253-256: [list(self._objects.values())]. *)
Definition obj_entries (self : t) : list GDrawable.t :=
  PyDict.values (_objects self).

(** Lines 254-256: the first element of the sizes sorted in descending
    order.  [draw] has returned before this when there is no member. *)
Definition biggest_size (self : t) : Z :=
  match sort_desc (map (fun o => GShape.size (GDrawable.shape o))
                       (obj_entries self)) with
  | b :: _ => b
  | [] => 0
  end.

(** Lines 281-302: an item's shape, drawn filled at its own size, then its
    number a quarter of the slot up and left of the shape's centre. *)
Definition draw_item (biggest_size x_l y_l : Z) (o : GDrawable.t)
  : M pygame.Surface unit :=
  let size := GShape.size (GDrawable.shape o) in
  f_rect <- (if is_Square (GShape.shape_type (GDrawable.shape o))
             then pygame.draw_rect (GShape.color (GDrawable.shape o))
                    (pygame.mkRect x_l y_l size size) 0
             else pygame.draw_ellipse (GShape.color (GDrawable.shape o))
                    (pygame.mkRect x_l y_l size size) 0) ;;
  pygame.blit_text (str (GDrawable.id o)) (0, 0, 0)
    (minus_quarter (fst (pygame.center f_rect)) biggest_size,
     minus_quarter (snd (pygame.center f_rect)) biggest_size).
End GContainerBase.

(** [self.attr = v] on the object a constructor is building: run the setter
    on it and go on with the object it leaves, or pass its exception on. *)
Definition on_new {S T} (self : T) (method : M T unit) : M S T :=
  match method self with
  | (Ok _, self') => ret self'
  | (Raise e, _) => raise e
  end.

(** ** GContainerRow (lines 195-302) *)
Module GContainerRow.
Import GContainerBase.

Definition fill_direction_setter (f : GFillDirection.t) : M t unit :=
  let n_f :=
    if GFillDirection.eqb f GFillDirection.TopLeft
       || GFillDirection.eqb f GFillDirection.BottomLeft
    then GFillDirection.Left
    else if GFillDirection.eqb f GFillDirection.TopRight
            || GFillDirection.eqb f GFillDirection.BottomRight
    then GFillDirection.Right
    else f in
  modify (set__fill_direction n_f).

(** The base constructor is called without [fill_direction] and [spacing],
    which take its defaults, [TopLeft] and 5. *)
Definition __init__ (size position : Z * Z) (shape : option GShape.t)
    (align : GAlign.t) (fill_direction : GFillDirection.t)
    (overflow : GOverflow.t) (padding : Z) : M Z t :=
  self <- GContainerBase.__init__ size position shape align
            GFillDirection.TopLeft overflow padding 5 ;;
  on_new self (fill_direction_setter fill_direction).

(** Lines 260-271: the slot of the item at index [i]. *)
Definition x_l (self : t) (biggest_size i : Z) : Z :=
  let '(x, y) := _position self in
  let '(width, height) := _size self in
  if GFillDirection.eqb (_fill_direction self) GFillDirection.Left
  then x + (i * biggest_size) + (i * _spacing self) + _padding self
  else (x + width) - (i * biggest_size) - (i * _spacing self)
       - _padding self - biggest_size.

Definition y_l (self : t) : Z := snd (_position self) + _padding self.

(** Lines 273-279: whether the loop [continue]s before drawing. *)
Definition culled (self : t) (biggest_size x_l : Z) : bool :=
  let x := fst (_position self) in
  if GOverflow.eqb (_overflow self) GOverflow.Hidden
  then if GFillDirection.eqb (_fill_direction self) GFillDirection.Right
       then x_l <? x
       else x_l + biggest_size >? x + fst (_size self)
  else false.

Definition draw (self : t) : M pygame.Surface unit :=
  draw_frame self ;;
  if PyDict.len (_objects self) =? 0 then ret tt
  else
    let biggest_size := biggest_size self in
    for_each (enumerate (obj_entries self)) (fun '(i, o) =>
      if culled self biggest_size (x_l self biggest_size i) then ret tt
      else draw_item biggest_size (x_l self biggest_size i) (y_l self) o).
End GContainerRow.

(** ** GContainerColumn (lines 305-412) *)
Module GContainerColumn.
Import GContainerBase.

Definition fill_direction_setter (f : GFillDirection.t) : M t unit :=
  let n_f :=
    if GFillDirection.eqb f GFillDirection.TopLeft
       || GFillDirection.eqb f GFillDirection.BottomLeft
    then GFillDirection.Left
    else if GFillDirection.eqb f GFillDirection.TopRight
            || GFillDirection.eqb f GFillDirection.BottomRight
    then GFillDirection.Right
    else f in
  modify (set__fill_direction n_f).

Definition __init__ (size position : Z * Z) (shape : option GShape.t)
    (align : GAlign.t) (fill_direction : GFillDirection.t)
    (overflow : GOverflow.t) (padding : Z) : M Z t :=
  self <- GContainerBase.__init__ size position shape align
            GFillDirection.TopLeft overflow padding 5 ;;
  on_new self (fill_direction_setter fill_direction).

Definition x_l (self : t) : Z := fst (_position self) + _padding self.

Definition y_l (self : t) (biggest_size i : Z) : Z :=
  let '(x, y) := _position self in
  let '(width, height) := _size self in
  if GFillDirection.eqb (_fill_direction self) GFillDirection.Left
  then y + (i * biggest_size) + (i * _spacing self) + _padding self
  else (y + height) - (i * biggest_size) - (i * _spacing self)
       - _padding self - biggest_size.

Definition culled (self : t) (biggest_size y_l : Z) : bool :=
  let y := snd (_position self) in
  if GOverflow.eqb (_overflow self) GOverflow.Hidden
  then if GFillDirection.eqb (_fill_direction self) GFillDirection.Right
       then y_l <? y
       else y_l + biggest_size >? y + snd (_size self)
  else false.

Definition draw (self : t) : M pygame.Surface unit :=
  draw_frame self ;;
  if PyDict.len (_objects self) =? 0 then ret tt
  else
    let biggest_size := biggest_size self in
    for_each (enumerate (obj_entries self)) (fun '(i, o) =>
      if culled self biggest_size (y_l self biggest_size i) then ret tt
      else draw_item biggest_size (x_l self) (y_l self biggest_size i) o).
End GContainerColumn.

(** ** GcontainerGrid (lines 415-581) *)
Module GcontainerGrid.
Import GContainerBase.

Definition fill_direction_setter (f : GFillDirection.t) : M t unit :=
  let n_f :=
    if GFillDirection.eqb f GFillDirection.Left
    then GFillDirection.TopLeft
    else if GFillDirection.eqb f GFillDirection.Right
    then GFillDirection.TopRight
    else f in
  modify (set__fill_direction n_f).

Definition __init__ (size position : Z * Z) (shape : option GShape.t)
    (align : GAlign.t) (fill_direction : GFillDirection.t)
    (overflow : GOverflow.t) (padding : Z) : M Z t :=
  self <- GContainerBase.__init__ size position shape align
            GFillDirection.TopLeft overflow padding 5 ;;
  on_new self (fill_direction_setter fill_direction).

(** Line 482: [math.floor(width / (biggest_size + self._spacing))], for a
    divisor that is not zero.  The quotient is a float; its floor is the
    integer floor of the exact quotient for every width below 2^53. *)
Definition max_grid_w (self : t) : Z :=
  fst (_size self) / (biggest_size self + _spacing self).

(** Line 483 *)
Definition obj_entries_chunked (self : t) : list (list GDrawable.t) :=
  array_chunks (obj_entries self) (max_grid_w self).

(** Lines 495-533: the cell of column [i] in chunk [j]; both coordinates stay
    0 for a fill direction that is not a corner. *)
Definition x_l (self : t) (biggest_size i : Z) : Z :=
  let '(x, y) := _position self in
  let '(width, height) := _size self in
  match _fill_direction self with
  | GFillDirection.TopLeft | GFillDirection.BottomLeft =>
      x + (i * biggest_size) + (i * _spacing self) + _padding self
  | GFillDirection.TopRight | GFillDirection.BottomRight =>
      (x + width) - (i * biggest_size) - (i * _spacing self)
      - _padding self - biggest_size
  | _ => 0
  end.

Definition y_l (self : t) (biggest_size j : Z) : Z :=
  let '(x, y) := _position self in
  let '(width, height) := _size self in
  match _fill_direction self with
  | GFillDirection.TopLeft | GFillDirection.TopRight =>
      y + (j * biggest_size) + (j * _spacing self) + _padding self
  | GFillDirection.BottomLeft | GFillDirection.BottomRight =>
      (y + height) - (j * biggest_size) - (j * _spacing self)
      - _padding self - biggest_size
  | _ => 0
  end.

(** Lines 535-556: whether the loop [continue]s before drawing.  The
    horizontal tests read [self._size[0]], the vertical ones [self.size[1]],
    the second component of what the [size] getter returns. *)
Definition culled (self : t) (biggest_size x_l y_l : Z) : bool :=
  let '(x, y) := _position self in
  if GOverflow.eqb (_overflow self) GOverflow.Hidden
  then match _fill_direction self with
       | GFillDirection.TopLeft =>
           (x_l + biggest_size >? x + fst (_size self))
           || (y_l + biggest_size >? y + snd (size self))
       | GFillDirection.TopRight =>
           (x_l <? x) || (y_l + biggest_size >? y + snd (size self))
       | GFillDirection.BottomLeft =>
           (x_l + biggest_size >? x + fst (_size self)) || (y_l <? y)
       | GFillDirection.BottomRight =>
           (x_l <? x) || (y_l <? y)
       | _ => false
       end
  else false.

Definition draw (self : t) : M pygame.Surface unit :=
  draw_frame self ;;
  if PyDict.len (_objects self) =? 0 then ret tt
  else
    let biggest_size := biggest_size self in
    if biggest_size + _spacing self =? 0 then raise ZeroDivisionError
    else
      for_each (enumerate (obj_entries_chunked self)) (fun '(j, o_a) =>
        for_each (enumerate o_a) (fun '(i, o) =>
          if culled self biggest_size
               (x_l self biggest_size i) (y_l self biggest_size j)
          then ret tt
          else draw_item biggest_size
                 (x_l self biggest_size i) (y_l self biggest_size j) o)).
End GcontainerGrid.

(** ** The three concrete classes together *)
Inductive ContainerClass : Type := Row | Column | Grid.

Definition construct (cls : ContainerClass) :=
  match cls with
  | Row => GContainerRow.__init__
  | Column => GContainerColumn.__init__
  | Grid => GcontainerGrid.__init__
  end.

Definition fill_direction_setter (cls : ContainerClass) :=
  match cls with
  | Row => GContainerRow.fill_direction_setter
  | Column => GContainerColumn.fill_direction_setter
  | Grid => GcontainerGrid.fill_direction_setter
  end.

Definition draw (cls : ContainerClass) :=
  match cls with
  | Row => GContainerRow.draw
  | Column => GContainerColumn.draw
  | Grid => GcontainerGrid.draw
  end.

(** ** Vocabulary of the statements *)

(** Assigning [f] through [setter] always succeeds and leaves [g] as the fill
    direction, every other attribute untouched. *)
Definition stores (setter : GFillDirection.t -> M GContainerBase.t unit)
    (f g : GFillDirection.t) : Prop :=
  forall self,
    setter f self = (Ok tt, GContainerBase.set__fill_direction g self)
    /\ GContainerBase.fill_direction
         (GContainerBase.set__fill_direction g self) = g.

(** The computation raised a [ValueError]. *)
Definition raises_ValueError {S A} (r : Result A * S) : Prop :=
  exists msg, fst r = Raise (ValueError msg).

(** The names [shape_setter] accepts. *)
Definition known_kind (k : ShapeKind) : Prop :=
  In (kind_name k) ["Square"; "Ellipse"].

(** ** Example objects *)

Definition square30 (addr id : Z) : GDrawable.t :=
  GDrawable.GDrawable addr id
    (GShape.GShape (Member GShapeType.Square) 30 (-1) (200, 30, 30)).

(** [GContainerRow((100, 50), (7, 9))], the first object constructed. *)
Definition plain_row : GContainerBase.t :=
  GContainerBase.mk 0 [] (100, 50) (7, 9)
    (GShape.GShape (Member GShapeType.Square) 10 2 DefaultColors_White)
    GAlign.NoAlign GFillDirection.Left GOverflow.Visible 5 5.

(** The same row, constructed with [align=GAlign.Center]. *)
Definition centered_row : GContainerBase.t :=
  GContainerBase.set__align GAlign.Center plain_row.

(** A row of size (100, 50) at (0, 0), padding 0, spacing 0, filling from the
    left, overflow hidden, entered by five squares of size 30. *)
Definition row_scene_steps : M Z GContainerBase.t :=
  self <- GContainerRow.__init__ (100, 50) (0, 0) None GAlign.NoAlign
            GFillDirection.Left GOverflow.Hidden 0 ;;
  on_new self
    (GContainerBase.spacing_setter 0 ;;
     GContainerBase.enter (square30 1000 1) ;;
     GContainerBase.enter (square30 1001 2) ;;
     GContainerBase.enter (square30 1002 3) ;;
     GContainerBase.enter (square30 1003 4) ;;
     GContainerBase.enter (square30 1004 5)).

Definition row_scene : GContainerBase.t :=
  GContainerBase.mk 0
    [("1000", square30 1000 1); ("1001", square30 1001 2);
     ("1002", square30 1002 3); ("1003", square30 1003 4);
     ("1004", square30 1004 5)]
    (100, 50) (0, 0)
    (GShape.GShape (Member GShapeType.Square) 10 2 DefaultColors_White)
    GAlign.NoAlign GFillDirection.Left GOverflow.Hidden 0 0.

(** A grid of size (100, 100) at (0, 0) with the default padding and spacing
    of 5, filling from the top left, overflow hidden, holding one square of
    size 30. *)
Definition grid_scene_steps : M Z GContainerBase.t :=
  self <- GcontainerGrid.__init__ (100, 100) (0, 0) None GAlign.NoAlign
            GFillDirection.TopLeft GOverflow.Hidden 5 ;;
  on_new self (GContainerBase.enter (square30 1000 1)).

Definition grid_scene : GContainerBase.t :=
  GContainerBase.mk 0 [("1000", square30 1000 1)] (100, 100) (0, 0)
    (GShape.GShape (Member GShapeType.Square) 10 2 DefaultColors_White)
    GAlign.NoAlign GFillDirection.TopLeft GOverflow.Hidden 5 5.

(** A grid of width 100 with spacing 10 and five squares of size 30. *)
Definition grid_of_five_steps : M Z GContainerBase.t :=
  self <- GcontainerGrid.__init__ (100, 100) (0, 0) None GAlign.NoAlign
            GFillDirection.TopLeft GOverflow.Visible 5 ;;
  on_new self
    (GContainerBase.spacing_setter 10 ;;
     GContainerBase.enter (square30 1000 1) ;;
     GContainerBase.enter (square30 1001 2) ;;
     GContainerBase.enter (square30 1002 3) ;;
     GContainerBase.enter (square30 1003 4) ;;
     GContainerBase.enter (square30 1004 5)).

Definition grid_of_five : GContainerBase.t :=
  GContainerBase.mk 0
    [("1000", square30 1000 1); ("1001", square30 1001 2);
     ("1002", square30 1002 3); ("1003", square30 1003 4);
     ("1004", square30 1004 5)]
    (100, 100) (0, 0)
    (GShape.GShape (Member GShapeType.Square) 10 2 DefaultColors_White)
    GAlign.NoAlign GFillDirection.TopLeft GOverflow.Visible 5 10.

(** A square drawable of size 30. *)
Definition is_square30 (d : GDrawable.t) : Prop :=
  GShape.shape_type (GDrawable.shape d) = Member GShapeType.Square
  /\ GShape.size (GDrawable.shape d) = 30.

(** The rectangle a drawing call was given. *)
Definition rect_given (c : pygame.DrawCall) : pygame.Rect :=
  match c with
  | pygame.draw_rect_call _ r _ | pygame.draw_ellipse_call _ r _ => r
  | pygame.blit_call _ _ _ => pygame.mkRect 0 0 0 0
  end.

(** A surface that cuts nothing away, every call returning the rectangle it
    was given, and on which nothing is drawn yet. *)
Definition recording : pygame.Surface := pygame.mkSurface rect_given [].

(** Lines 298-301: where the number goes, given the rectangle the shape call
    returned. *)
Definition label_dest (biggest_size : Z) (f_rect : pygame.Rect) : Q * Q :=
  (minus_quarter (fst (pygame.center f_rect)) biggest_size,
   minus_quarter (snd (pygame.center f_rect)) biggest_size).

(** The two calls [draw] makes for a square item of size 30 in the slot that
    starts at [x], in a row at height 0 without padding whose slots are 30
    wide, on a surface whose calls return what [ret] tells. *)
Definition square30_calls (ret : pygame.DrawCall -> pygame.Rect) (x : Z)
    (d : GDrawable.t) : list pygame.DrawCall :=
  let shape_call :=
    pygame.draw_rect_call (GShape.color (GDrawable.shape d))
      (pygame.mkRect x 0 30 30) 0 in
  [shape_call;
   pygame.blit_call (str (GDrawable.id d)) (0, 0, 0)
     (label_dest 30 (ret shape_call))].



(** A grid with spacing 0 whose one member has size 0. *)
Definition dot : GDrawable.t :=
  GDrawable.GDrawable 1001 2
    (GShape.GShape (Member GShapeType.Ellipse) 0 (-1) (0, 0, 0)).


Definition dot_grid : GContainerBase.t :=
  GContainerBase.mk 0 [("1001", dot)] (100, 100) (0, 0)
    (GShape.GShape (Member GShapeType.Square) 10 2 DefaultColors_White)
    GAlign.NoAlign GFillDirection.TopLeft GOverflow.Visible 5 0.

(** ** Vocabulary of the statements about [draw] and about callers *)

(** The call that draws the frame of [self]. *)
Definition frame_call (self : GContainerBase.t) : pygame.DrawCall :=
  let '(x, y) := GContainerBase._position self in
  let '(width, height) := GContainerBase._size self in
  (if is_Square (GShape.shape_type (GContainerBase._shape self))
   then pygame.draw_rect_call else pygame.draw_ellipse_call)
    DefaultColors_White (pygame.mkRect x y width height)
    (GShape.border_size (GContainerBase._shape self)).

(** The two calls that draw the item [o] at ([x_l], [y_l]): its shape, then
    its number, placed by the rectangle [ret] tells the shape call
    returned. *)
Definition item_calls (ret : pygame.DrawCall -> pygame.Rect)
    (biggest_size x_l y_l : Z) (o : GDrawable.t) : list pygame.DrawCall :=
  let size := GShape.size (GDrawable.shape o) in
  let shape_call :=
    (if is_Square (GShape.shape_type (GDrawable.shape o))
     then pygame.draw_rect_call else pygame.draw_ellipse_call)
      (GShape.color (GDrawable.shape o)) (pygame.mkRect x_l y_l size size) 0 in
  [shape_call;
   pygame.blit_call (str (GDrawable.id o)) (0, 0, 0)
     (label_dest biggest_size (ret shape_call))].

(** The calls a row, a column and a grid make for one enumerated member. *)
Definition row_item_calls (ret : pygame.DrawCall -> pygame.Rect)
    (self : GContainerBase.t) : Z * GDrawable.t -> list pygame.DrawCall :=
  fun '(i, o) =>
    let b := GContainerBase.biggest_size self in
    if GContainerRow.culled self b (GContainerRow.x_l self b i) then []
    else item_calls ret b (GContainerRow.x_l self b i)
           (GContainerRow.y_l self) o.

Definition column_item_calls (ret : pygame.DrawCall -> pygame.Rect)
    (self : GContainerBase.t) : Z * GDrawable.t -> list pygame.DrawCall :=
  fun '(i, o) =>
    let b := GContainerBase.biggest_size self in
    if GContainerColumn.culled self b (GContainerColumn.y_l self b i) then []
    else item_calls ret b (GContainerColumn.x_l self)
           (GContainerColumn.y_l self b i) o.

Definition grid_item_calls (ret : pygame.DrawCall -> pygame.Rect)
    (self : GContainerBase.t) (j : Z)
  : Z * GDrawable.t -> list pygame.DrawCall :=
  fun '(i, o) =>
    let b := GContainerBase.biggest_size self in
    if GcontainerGrid.culled self b
         (GcontainerGrid.x_l self b i) (GcontainerGrid.y_l self b j)
    then []
    else item_calls ret b (GcontainerGrid.x_l self b i)
           (GcontainerGrid.y_l self b j) o.

(** The calls a grid makes for its chunks, one after the other. *)
Definition grid_chunk_calls (ret : pygame.DrawCall -> pygame.Rect)
    (self : GContainerBase.t) (chunks : list (list GDrawable.t))
  : list pygame.DrawCall :=
  flat_map (fun '(j, o_a) =>
              flat_map (grid_item_calls ret self j) (enumerate o_a))
    (enumerate chunks).

(** The rectangle of a call that draws a shape. *)
Definition shape_rect (c : pygame.DrawCall) : option pygame.Rect :=
  match c with
  | pygame.draw_rect_call _ r _ | pygame.draw_ellipse_call _ r _ => Some r
  | pygame.blit_call _ _ _ => None
  end.

(** Mirroring in the diagonal: of a call, and of a container's geometry. *)
Definition transpose_rect (r : pygame.Rect) : pygame.Rect :=
  pygame.mkRect (pygame.top r) (pygame.left r)
    (pygame.height r) (pygame.width r).

Definition transpose_call (c : pygame.DrawCall) : pygame.DrawCall :=
  match c with
  | pygame.draw_rect_call color r border =>
      pygame.draw_rect_call color (transpose_rect r) border
  | pygame.draw_ellipse_call color r border =>
      pygame.draw_ellipse_call color (transpose_rect r) border
  | pygame.blit_call text color (a, b) => pygame.blit_call text color (b, a)
  end.

(** The surface mirrored: it returns for a call the mirror image of what
    the surface returns for the mirrored call. *)
Definition transpose_surface (screen : pygame.Surface) : pygame.Surface :=
  pygame.mkSurface
    (fun c => transpose_rect (pygame.returned screen (transpose_call c)))
    (map transpose_call (pygame.calls screen)).

Definition transpose (self : GContainerBase.t) : GContainerBase.t :=
  GContainerBase.set__size
    (snd (GContainerBase._size self), fst (GContainerBase._size self))
    (GContainerBase.set__position
       (snd (GContainerBase._position self),
        fst (GContainerBase._position self)) self).

(** A method call a user of a container can make. *)
Inductive MethodCall : Type :=
| assign_size (s : Z * Z)
| assign_position (p : Z * Z)
| assign_shape (s : GShape.t)
| assign_align (a : GAlign.t)
| assign_fill_direction (f : GFillDirection.t)
| assign_overflow (o : GOverflow.t)
| assign_padding (p : Z)
| assign_spacing (s : Z)
| call_enter (d : GDrawable.t)
| call_leave (d : GDrawable.t).

Definition perform (cls : ContainerClass) (c : MethodCall)
  : M GContainerBase.t unit :=
  match c with
  | assign_size s => GContainerBase.size_setter s
  | assign_position p => GContainerBase.position_setter p
  | assign_shape s => GContainerBase.shape_setter s
  | assign_align a => GContainerBase.align_setter a
  | assign_fill_direction f => fill_direction_setter cls f
  | assign_overflow o => GContainerBase.overflow_setter o
  | assign_padding p => GContainerBase.padding_setter p
  | assign_spacing s => GContainerBase.spacing_setter s
  | call_enter d => GContainerBase.enter d
  | call_leave d => GContainerBase.leave d
  end.

(** A caller that makes the calls one after the other and goes on after an
    exception: the container after the last call. *)
Fixpoint perform_all (cls : ContainerClass) (cs : list MethodCall)
    (self : GContainerBase.t) : GContainerBase.t :=
  match cs with
  | [] => self
  | c :: cs' => perform_all cls cs' (snd (perform cls c self))
  end.

(** The fill directions a class ever stores. *)
Definition native_fill (cls : ContainerClass) (f : GFillDirection.t) : bool :=
  match cls, f with
  | (Row | Column), (GFillDirection.Left | GFillDirection.Right) => true
  | Grid, (GFillDirection.TopLeft | GFillDirection.TopRight
           | GFillDirection.BottomLeft | GFillDirection.BottomRight) => true
  | _, _ => false
  end.

(** Every entry of the dictionary is filed under the key of its drawable,
    and no key occurs twice. *)
Definition keyed (d : PyDict.t GDrawable.t) : Prop :=
  NoDup (map fst d) /\ Forall (fun kv => fst kv = GContainerBase.key (snd kv)) d.

(** What holds of a container of class [cls] however it is used. *)
Definition settled (cls : ContainerClass) (self : GContainerBase.t) : Prop :=
  0 <= GContainerBase._spacing self
  /\ native_fill cls (GContainerBase._fill_direction self) = true
  /\ keyed (GContainerBase._objects self).

(** What the setters check, of the attributes a constructor takes
    unchecked. *)
Definition checked (self : GContainerBase.t) : Prop :=
  0 < fst (GContainerBase._size self) /\ 0 < snd (GContainerBase._size self)
  /\ 0 <= GContainerBase._padding self
  /\ known_kind (GShape.shape_type (GContainerBase._shape self))
  /\ -1 <= GShape.border_size (GContainerBase._shape self).

(** The arguments of a constructor call. *)
Record ConstructorCall : Type := new {
  new_class : ContainerClass;
  new_size : Z * Z;
  new_position : Z * Z;
  new_shape : option GShape.t;
  new_align : GAlign.t;
  new_fill_direction : GFillDirection.t;
  new_overflow : GOverflow.t;
  new_padding : Z
}.

Definition construct_call (a : ConstructorCall) : M Z GContainerBase.t :=
  construct (new_class a) (new_size a) (new_position a) (new_shape a)
    (new_align a) (new_fill_direction a) (new_overflow a) (new_padding a).

(** Constructor calls made one after the other. *)
Fixpoint construct_all (l : list ConstructorCall)
  : M Z (list GContainerBase.t) :=
  match l with
  | [] => ret []
  | a :: l' =>
      self <- construct_call a ;;
      rest <- construct_all l' ;;
      ret (self :: rest)
  end.

(** A row with the default spacing and three squares, for the statements
    about culling. *)
Definition row_of_three : GContainerBase.t :=
  GContainerBase.mk 0
    [("1000", square30 1000 1); ("1001", square30 1001 2);
     ("1002", square30 1002 3)]
    (100, 50) (10, 20)
    (GShape.GShape (Member GShapeType.Square) 10 2 DefaultColors_White)
    GAlign.NoAlign GFillDirection.Right GOverflow.Hidden 5 5.

(** * Properties *)

Ltac run :=
  unfold bind, ret, raise, get, modify, on_new; simpl.

Example row_scene_built : row_scene_steps 0 = (Ok row_scene, 1).
Proof. reflexivity. Qed.

Example grid_scene_built : grid_scene_steps 0 = (Ok grid_scene, 1).
Proof. reflexivity. Qed.

Example grid_of_five_built : grid_of_five_steps 0 = (Ok grid_of_five, 1).
Proof. reflexivity. Qed.

Example plain_row_built :
  GContainerRow.__init__ (100, 50) (7, 9) None GAlign.NoAlign
    GFillDirection.TopLeft GOverflow.Visible 5 0 = (Ok plain_row, 1).
Proof. reflexivity. Qed.

(** ** Dictionaries *)
Section DictFacts.
Variable V : Type.
Implicit Types (d : PyDict.t V) (k : string) (v : V).

Lemma contains_set k v d : PyDict.contains k (PyDict.set k v d) = true.
Proof.
  induction d as [|[k' v'] d IH]; simpl.
  - now rewrite String.eqb_refl.
  - destruct (String.eqb k k') eqn:E; simpl.
    + now rewrite String.eqb_refl.
    + now rewrite E.
Qed.

Lemma del_set_absent k v d :
  PyDict.contains k d = false -> PyDict.del k (PyDict.set k v d) = d.
Proof.
  induction d as [|[k' v'] d IH]; simpl; intros H.
  - now rewrite String.eqb_refl.
  - apply orb_false_iff in H as [E H].
    rewrite E; simpl; rewrite E.
    now rewrite IH.
Qed.

Lemma values_set_absent k v d :
  PyDict.contains k d = false ->
  PyDict.values (PyDict.set k v d) = PyDict.values d ++ [v].
Proof.
  unfold PyDict.values.
  induction d as [|[k' v'] d IH]; simpl; intros H; [reflexivity|].
  apply orb_false_iff in H as [E H].
  rewrite E; simpl. now rewrite IH.
Qed.
Lemma length_set_absent k v d :
  PyDict.contains k d = false ->
  List.length (PyDict.set k v d) = S (List.length d).
Proof.
  induction d as [|[k' v'] d IH]; simpl; intros H; [reflexivity|].
  apply orb_false_iff in H as [E H].
  rewrite E; simpl. now rewrite IH.
Qed.
End DictFacts.

(** ** Records: writing back what is there changes nothing *)
Lemma set__objects_same self :
  GContainerBase.set__objects (GContainerBase._objects self) self = self.
Proof. now destruct self. Qed.

(** ** Configuration: getters, setters and constructors *)

(** Every getter but [size] returns the attribute of its name. *)
Lemma getters_read_attributes self :
  GContainerBase.position self = GContainerBase._position self
  /\ GContainerBase.padding self = GContainerBase._padding self
  /\ GContainerBase.spacing self = GContainerBase._spacing self
  /\ GContainerBase.align self = GContainerBase._align self
  /\ GContainerBase.overflow self = GContainerBase._overflow self
  /\ GContainerBase.fill_direction self = GContainerBase._fill_direction self
  /\ GContainerBase.shape self = GContainerBase._shape self.
Proof. repeat split. Qed.

(** What a constructor builds: nothing is checked, and only the fill
    direction goes through a setter. *)
Lemma construct_eq cls size position shape align fill overflow padding n :
  exists g,
    construct cls size position shape align fill overflow padding n
    = (Ok (GContainerBase.mk n [] size position
             (GContainerBase._set_shape shape) align g overflow padding 5),
       n + 1)
    /\ fill_direction_setter cls fill
         (GContainerBase.mk n [] size position
            (GContainerBase._set_shape shape) align GFillDirection.TopLeft
            overflow padding 5)
       = (Ok tt,
          GContainerBase.mk n [] size position
            (GContainerBase._set_shape shape) align g overflow padding 5).
Proof.
  destruct cls, fill; eexists; split; reflexivity.
Qed.

(** C1, at the container [GContainerRow((100, 50), (7, 9))] of any of the
    three classes: the size that was set is the stored [_size], yet reading
    [size] returns (7, 9), the position, and not (100, 50). *)
Theorem size_getter_returns_position :
  forall cls, exists self,
    construct cls (100, 50) (7, 9) None GAlign.NoAlign GFillDirection.TopLeft
      GOverflow.Visible 5 0 = (Ok self, 1)
    /\ GContainerBase._size self = (100, 50)
    /\ GContainerBase.size self = (7, 9)
    /\ GContainerBase.size self <> (100, 50).
Proof.
  intros cls; destruct cls; eexists; (split; [reflexivity|]);
    repeat split; discriminate.
Qed.

(** C2 fails for construction: [GContainerRow((0, 10), (0, 0))] does not
    raise, and the container it builds holds the size (0, 10). *)
Lemma construct_accepts_zero_width :
  ~ raises_ValueError
      (GContainerRow.__init__ (0, 10) (0, 0) None GAlign.NoAlign
         GFillDirection.TopLeft GOverflow.Visible 5 0)
  /\ exists self,
       GContainerRow.__init__ (0, 10) (0, 0) None GAlign.NoAlign
         GFillDirection.TopLeft GOverflow.Visible 5 0 = (Ok self, 1)
       /\ GContainerBase._size self = (0, 10).
Proof.
  split.
  - intros [msg H]. discriminate H.
  - eexists; split; reflexivity.
Qed.

(** C2, amended: assigning a size with a dimension that is zero or negative
    raises [ValueError] and leaves the container as it was, stored size
    included; a constructor of any class, given such a size, does not raise
    and stores it. *)
Theorem size_setter_rejects_nonpositive :
  forall (s : Z * Z), fst s <= 0 \/ snd s <= 0 ->
    (forall self,
       GContainerBase.size_setter s self
       = (Raise (ValueError "Negative or zero values supplied to size"), self)
       /\ raises_ValueError (GContainerBase.size_setter s self))
    /\ (forall cls position shape align fill overflow padding n,
          exists self,
            construct cls s position shape align fill overflow padding n
            = (Ok self, n + 1)
            /\ GContainerBase._size self = s).
Proof.
  intros s Hs; split.
  - intros self.
    assert (E : (fst s <=? 0) || (snd s <=? 0) = true).
    { apply orb_true_iff. destruct Hs; [left | right]; now apply Z.leb_le. }
    unfold GContainerBase.size_setter, raises_ValueError. rewrite E.
    split; [reflexivity | eexists; reflexivity].
  - intros cls position shape align fill overflow padding n.
    destruct (construct_eq cls s position shape align fill overflow padding n)
      as [g [E _]].
    eexists; split; [exact E | reflexivity].
Qed.

Lemma size_setter_rejects_nonpositive_witness :
  GContainerBase.size_setter (0, 10) plain_row
  = (Raise (ValueError "Negative or zero values supplied to size"), plain_row)
  /\ GContainerBase.size_setter (-5, 5) plain_row
     = (Raise (ValueError "Negative or zero values supplied to size"),
        plain_row).
Proof.
  split.
  - apply (size_setter_rejects_nonpositive (0, 10)); simpl; lia.
  - apply (size_setter_rejects_nonpositive (-5, 5)); simpl; lia.
Defined.

(** A valid size is stored by the setter. *)
Lemma size_setter_accepts_positive (s : Z * Z) self :
  0 < fst s -> 0 < snd s ->
  GContainerBase.size_setter s self
  = (Ok tt, GContainerBase.set__size s self).
Proof.
  intros H1 H2. unfold GContainerBase.size_setter.
  apply Z.leb_gt in H1, H2. now rewrite H1, H2.
Qed.

(** C3: a row or a column stores [Left] for [TopLeft] and [BottomLeft],
    [Right] for [TopRight] and [BottomRight], and [Left], [Right] as they
    are; a grid stores [TopLeft] for [Left], [TopRight] for [Right], and the
    four corners as they are. *)
Theorem fill_direction_collapse :
  (forall cls, cls = Row \/ cls = Column ->
     stores (fill_direction_setter cls)
       GFillDirection.TopLeft GFillDirection.Left
     /\ stores (fill_direction_setter cls)
          GFillDirection.BottomLeft GFillDirection.Left
     /\ stores (fill_direction_setter cls)
          GFillDirection.TopRight GFillDirection.Right
     /\ stores (fill_direction_setter cls)
          GFillDirection.BottomRight GFillDirection.Right
     /\ stores (fill_direction_setter cls)
          GFillDirection.Left GFillDirection.Left
     /\ stores (fill_direction_setter cls)
          GFillDirection.Right GFillDirection.Right)
  /\ stores (fill_direction_setter Grid)
       GFillDirection.Left GFillDirection.TopLeft
  /\ stores (fill_direction_setter Grid)
       GFillDirection.Right GFillDirection.TopRight
  /\ stores (fill_direction_setter Grid)
       GFillDirection.TopLeft GFillDirection.TopLeft
  /\ stores (fill_direction_setter Grid)
       GFillDirection.TopRight GFillDirection.TopRight
  /\ stores (fill_direction_setter Grid)
       GFillDirection.BottomLeft GFillDirection.BottomLeft
  /\ stores (fill_direction_setter Grid)
       GFillDirection.BottomRight GFillDirection.BottomRight.
Proof.
  split; [intros cls [-> | ->] |]; repeat split.
Qed.

Lemma fill_direction_collapse_witness :
  stores (fill_direction_setter Row)
    GFillDirection.BottomLeft GFillDirection.Left
  /\ stores (fill_direction_setter Column)
       GFillDirection.TopRight GFillDirection.Right.
Proof.
  split.
  - apply (proj1 fill_direction_collapse Row). left; reflexivity.
  - apply (proj1 fill_direction_collapse Column). right; reflexivity.
Defined.

(** ** Membership *)

Lemma enter_absent d self :
  PyDict.contains (GContainerBase.key d) (GContainerBase._objects self)
  = false ->
  GContainerBase.enter d self
  = (Ok tt,
     GContainerBase.set__objects
       (PyDict.set (GContainerBase.key d) d (GContainerBase._objects self))
       self).
Proof. intros H. unfold GContainerBase.enter; run. now rewrite H. Qed.

Lemma enter_present d self :
  PyDict.contains (GContainerBase.key d) (GContainerBase._objects self)
  = true ->
  GContainerBase.enter d self
  = (Raise (Exception_ "Object already in this container"), self).
Proof. intros H. unfold GContainerBase.enter; run. now rewrite H. Qed.

Lemma leave_absent d self :
  PyDict.contains (GContainerBase.key d) (GContainerBase._objects self)
  = false ->
  GContainerBase.leave d self
  = (Raise (Exception_ "Object not in this container"), self).
Proof. intros H. unfold GContainerBase.leave; run. now rewrite H. Qed.

Lemma leave_present d self :
  PyDict.contains (GContainerBase.key d) (GContainerBase._objects self)
  = true ->
  GContainerBase.leave d self
  = (Ok tt,
     GContainerBase.set__objects
       (PyDict.del (GContainerBase.key d) (GContainerBase._objects self))
       self).
Proof. intros H. unfold GContainerBase.leave; run. now rewrite H. Qed.

(** C7: for a drawable [d] that is not in the container, [enter(d)] succeeds
    and a following [leave(d)] gives back the very container there was (so an
    empty one is empty again); a second [enter(d)] raises "Object already in
    this container" and changes nothing; [leave(d)] without [d] inside raises
    "Object not in this container" and changes nothing. *)
Theorem enter_leave_law :
  forall (self : GContainerBase.t) (d : GDrawable.t),
    PyDict.contains (GContainerBase.key d) (GContainerBase._objects self)
    = false ->
    (exists entered,
       GContainerBase.enter d self = (Ok tt, entered)
       /\ GContainerBase.__len__ entered = GContainerBase.__len__ self + 1
       /\ GContainerBase.leave d entered = (Ok tt, self)
       /\ GContainerBase.enter d entered
          = (Raise (Exception_ "Object already in this container"), entered))
    /\ GContainerBase.leave d self
       = (Raise (Exception_ "Object not in this container"), self).
Proof.
  intros self d H. split; [|now apply leave_absent].
  eexists. split; [now apply enter_absent|].
  assert (Hin : PyDict.contains (GContainerBase.key d)
                  (GContainerBase._objects
                     (GContainerBase.set__objects
                        (PyDict.set (GContainerBase.key d) d
                           (GContainerBase._objects self)) self)) = true)
    by (simpl; apply contains_set).
  split; [|split].
  - unfold GContainerBase.__len__, PyDict.len; simpl.
    rewrite (length_set_absent _ _ d _ H). lia.
  - rewrite (leave_present _ _ Hin); simpl.
    rewrite (del_set_absent _ _ d _ H).
    destruct self; reflexivity.
  - now apply enter_present.
Qed.

Lemma enter_leave_law_witness :
  (exists entered,
     GContainerBase.enter (square30 1000 1) plain_row = (Ok tt, entered)
     /\ GContainerBase.__len__ entered = GContainerBase.__len__ plain_row + 1
     /\ GContainerBase.leave (square30 1000 1) entered = (Ok tt, plain_row)
     /\ GContainerBase.enter (square30 1000 1) entered
        = (Raise (Exception_ "Object already in this container"), entered))
  /\ GContainerBase.leave (square30 1000 1) plain_row
     = (Raise (Exception_ "Object not in this container"), plain_row).
Proof. apply (enter_leave_law plain_row (square30 1000 1)). reflexivity. Defined.

(** ** Position and shape *)

Lemma GAlign_eqb_eq a b : GAlign.eqb a b = true <-> a = b.
Proof. destruct a, b; simpl; split; congruence. Qed.

(** C8: a position with a negative component is refused, with a
    [ValueError] and no change to the container, exactly when the alignment
    is [NoAlign]; under any other alignment it is accepted and is the
    position read back. *)
Theorem position_setter_negative :
  forall (self : GContainerBase.t) (p : Z * Z),
    fst p < 0 \/ snd p < 0 ->
    (raises_ValueError (GContainerBase.position_setter p self)
     <-> GContainerBase._align self = GAlign.NoAlign)
    /\ (GContainerBase._align self = GAlign.NoAlign ->
        GContainerBase.position_setter p self
        = (Raise (ValueError "Negative values supplied to position"), self))
    /\ (GContainerBase._align self <> GAlign.NoAlign ->
        GContainerBase.position_setter p self
        = (Ok tt, GContainerBase.set__position p self)
        /\ GContainerBase.position (GContainerBase.set__position p self) = p).
Proof.
  intros self p Hp.
  assert (E : (fst p <? 0) || (snd p <? 0) = true).
  { apply orb_true_iff. destruct Hp; [left | right]; now apply Z.ltb_lt. }
  unfold GContainerBase.position_setter, raises_ValueError; run.
  destruct (GAlign.eqb (GContainerBase._align self) GAlign.NoAlign) eqn:Ea.
  - apply GAlign_eqb_eq in Ea. rewrite E; simpl.
    repeat split; try (intros; congruence).
    intros _. eexists; reflexivity.
  - assert (Hn : GContainerBase._align self <> GAlign.NoAlign).
    { intros H. apply GAlign_eqb_eq in H. congruence. }
    simpl. repeat split; try (intros; congruence).
    intros [msg H]. discriminate H.
Qed.

Lemma position_setter_negative_witness :
  GContainerBase.position_setter (-3, 4) plain_row
  = (Raise (ValueError "Negative values supplied to position"), plain_row)
  /\ GContainerBase.position_setter (-3, 4) centered_row
     = (Ok tt, GContainerBase.set__position (-3, 4) centered_row).
Proof.
  split.
  - apply (position_setter_negative plain_row (-3, 4)); simpl; [lia | reflexivity].
  - apply (position_setter_negative centered_row (-3, 4)); simpl;
      [lia | discriminate].
Defined.

(** A position without negative component is stored under every alignment. *)
Lemma position_setter_nonnegative self (p : Z * Z) :
  0 <= fst p -> 0 <= snd p ->
  GContainerBase.position_setter p self
  = (Ok tt, GContainerBase.set__position p self).
Proof.
  intros H1 H2. apply Z.ltb_ge in H1, H2.
  unfold GContainerBase.position_setter; run.
  rewrite H1, H2. now destruct (GAlign.eqb _ _).
Qed.

Lemma known_kind_test k :
  existsb (String.eqb (kind_name k))
    (map GShapeType.name GShapeType.members) = true
  <-> known_kind k.
Proof.
  unfold known_kind; simpl. rewrite !orb_true_iff, !String.eqb_eq.
  intuition congruence.
Qed.




(** A shape of a known kind with border size -1 or more is stored as it is. *)
Lemma shape_setter_keeps_valid self s :
  known_kind (GShape.shape_type s) -> -1 <= GShape.border_size s ->
  GContainerBase.shape_setter s self
  = (Ok tt, GContainerBase.set__shape s self).
Proof.
  intros Hk Hb. apply known_kind_test in Hk. apply Z.ltb_ge in Hb.
  unfold GContainerBase.shape_setter. now rewrite Hk, Hb.
Qed.

(** C10: a constructor of any class, given a shape, stores that very shape,
    whatever its kind and border size, and does not raise; given none, it
    stores a square of size 10 with border 2 in white. *)
Theorem construct_stores_shape_unchecked :
  forall cls size position align fill overflow padding n,
    (forall s : GShape.t, exists self,
       construct cls size position (Some s) align fill overflow padding n
       = (Ok self, n + 1)
       /\ GContainerBase.shape self = s)
    /\ (exists self,
          construct cls size position None align fill overflow padding n
          = (Ok self, n + 1)
          /\ GContainerBase.shape self
             = GShape.GShape (Member GShapeType.Square) 10 2
                 DefaultColors_White).
Proof.
  intros cls size position align fill overflow padding n. split; [intros s|].
  - destruct (construct_eq cls size position (Some s) align fill overflow
                padding n) as [g [E _]].
    eexists; split; [exact E | reflexivity].
  - destruct (construct_eq cls size position None align fill overflow
                padding n) as [g [E _]].
    eexists; split; [exact E | reflexivity].
Qed.

(** The contrast with the setter, on a shape of unknown kind and on one with
    border size -7: the constructor keeps both, the setter refuses the first
    and alters the second. *)
Example construct_and_setter_differ :
  let odd := GShape.GShape (Foreign "Triangle") 10 2 DefaultColors_White in
  let thin := GShape.GShape (Member GShapeType.Square) 10 (-7)
                DefaultColors_White in
  (exists self,
     GcontainerGrid.__init__ (100, 50) (7, 9) (Some odd) GAlign.NoAlign
       GFillDirection.TopLeft GOverflow.Visible 5 0 = (Ok self, 1)
     /\ GContainerBase.shape self = odd)
  /\ (exists self,
        GcontainerGrid.__init__ (100, 50) (7, 9) (Some thin) GAlign.NoAlign
          GFillDirection.TopLeft GOverflow.Visible 5 0 = (Ok self, 1)
        /\ GContainerBase.shape self = thin)
  /\ fst (GContainerBase.shape_setter odd plain_row)
     = Raise (ValueError "Invalid shape type supplied")
  /\ GContainerBase.shape (snd (GContainerBase.shape_setter thin plain_row))
     = GShape.GShape (Member GShapeType.Square) 10 (-1) DefaultColors_White.
Proof.
  simpl. repeat split; eexists; split; reflexivity.
Qed.

(** ** Drawing: what the three [draw] methods share *)

Lemma insert_desc_In x a l : In x (insert_desc a l) <-> x = a \/ In x l.
Proof.
  induction l as [|b l IH]; simpl.
  - intuition.
  - destruct (b <? a); simpl; rewrite ?IH; intuition.
Qed.

Lemma sort_desc_In x l : In x (sort_desc l) <-> In x l.
Proof.
  induction l as [|a l IH]; simpl; [reflexivity|].
  rewrite insert_desc_In, IH. intuition.
Qed.

(** The head of the sorted list is a greatest element of the list. *)
Lemma sort_desc_head l b r :
  sort_desc l = b :: r -> In b l /\ Forall (fun x => x <= b) l.
Proof.
  revert b r. induction l as [|a l IH]; simpl; intros b r H; [discriminate|].
  destruct (sort_desc l) as [|b' r'] eqn:E.
  - assert (l = []) as ->.
    { destruct l as [|c l]; [reflexivity|].
      assert (Hc : In c (sort_desc (c :: l))) by (apply sort_desc_In; now left).
      rewrite E in Hc. destruct Hc. }
    simpl in H. injection H as <- _. split; [now left|].
    constructor; [lia | constructor].
  - destruct (IH _ _ eq_refl) as [Hin Hall].
    simpl in H. destruct (b' <? a) eqn:Hlt; injection H as <- _.
    + apply Z.ltb_lt in Hlt. split; [now left|].
      constructor; [lia|].
      eapply Forall_impl; [|exact Hall]. simpl; intros; lia.
    + apply Z.ltb_ge in Hlt. split; [now right|].
      constructor; assumption.
Qed.

Lemma len_obj_entries self :
  PyDict.len (GContainerBase._objects self)
  = Z.of_nat (List.length (GContainerBase.obj_entries self)).
Proof.
  unfold PyDict.len, GContainerBase.obj_entries, PyDict.values.
  now rewrite length_map.
Qed.

(** With a member, [biggest_size] is the size of one and at least the size
    of each. *)
Lemma biggest_size_is_max self :
  GContainerBase.obj_entries self <> [] ->
  (exists o, In o (GContainerBase.obj_entries self)
             /\ GContainerBase.biggest_size self
                = GShape.size (GDrawable.shape o))
  /\ (forall o, In o (GContainerBase.obj_entries self) ->
                GShape.size (GDrawable.shape o)
                <= GContainerBase.biggest_size self).
Proof.
  intros Hne. unfold GContainerBase.biggest_size.
  destruct (sort_desc _) as [|b r] eqn:E.
  - exfalso. destruct (GContainerBase.obj_entries self) as [|o l];
      [now apply Hne|].
    assert (Ho : In (GShape.size (GDrawable.shape o)) [])
      by (rewrite <- E; apply sort_desc_In; now left).
    destruct Ho.
  - apply sort_desc_head in E as [Hin Hall]. split.
    + apply in_map_iff in Hin as [o [Ho Hin]]. now exists o.
    + intros o Ho. rewrite Forall_forall in Hall. apply Hall.
      apply in_map_iff. now exists o.
Qed.

Lemma for_each_ok {S A} (l : list A) (body : A -> M S unit) :
  (forall a s, fst (body a s) = Ok tt) ->
  forall s, fst (for_each l body s) = Ok tt.
Proof.
  intros Hbody. induction l as [|a l IH]; intros s; simpl; [reflexivity|].
  unfold bind. specialize (Hbody a s).
  destruct (body a s) as [[[]|e] s']; simpl in Hbody; [apply IH | discriminate].
Qed.

Lemma draw_frame_ok self screen :
  fst (GContainerBase.draw_frame self screen) = Ok tt.
Proof.
  unfold GContainerBase.draw_frame.
  destruct (GContainerBase._position self), (GContainerBase._size self).
  now destruct (is_Square _).
Qed.

Lemma draw_item_ok b x y o screen :
  fst (GContainerBase.draw_item b x y o screen) = Ok tt.
Proof.
  unfold GContainerBase.draw_item. now destruct (is_Square _).
Qed.

(** ** What [draw] puts on the screen *)

Lemma add_all_nil screen : pygame.add_all screen [] = screen.
Proof. destruct screen. unfold pygame.add_all; simpl. now rewrite app_nil_r. Qed.

Lemma add_all_add_all screen l1 l2 :
  pygame.add_all (pygame.add_all screen l1) l2 = pygame.add_all screen (l1 ++ l2).
Proof. unfold pygame.add_all; simpl. now rewrite app_assoc. Qed.

Lemma draw_frame_eq self screen :
  GContainerBase.draw_frame self screen
  = (Ok tt, pygame.add_all screen [frame_call self]).
Proof.
  unfold GContainerBase.draw_frame, frame_call, GContainerBase.shape.
  destruct (GContainerBase._position self), (GContainerBase._size self).
  now destruct (is_Square _).
Qed.

Lemma draw_item_eq b x y o screen :
  GContainerBase.draw_item b x y o screen
  = (Ok tt,
     pygame.add_all screen (item_calls (pygame.returned screen) b x y o)).
Proof.
  unfold GContainerBase.draw_item, item_calls, label_dest.
  destruct (is_Square _); run; unfold pygame.blit_text;
    now rewrite add_all_add_all.
Qed.

(** A loop whose body only adds calls adds the calls of all its rounds. *)
Lemma for_each_appends {A} (l : list A)
    (body : A -> M pygame.Surface unit)
    (f : (pygame.DrawCall -> pygame.Rect) -> A -> list pygame.DrawCall) :
  (forall a s, body a s
               = (Ok tt, pygame.add_all s (f (pygame.returned s) a))) ->
  forall s, for_each l body s
            = (Ok tt, pygame.add_all s (flat_map (f (pygame.returned s)) l)).
Proof.
  intros Hbody. induction l as [|a l IH]; intros s; simpl.
  - now rewrite add_all_nil.
  - unfold bind. rewrite Hbody, IH. now rewrite add_all_add_all.
Qed.

Lemma entries_nil_of_len self :
  PyDict.len (GContainerBase._objects self) = 0 ->
  GContainerBase.obj_entries self = [].
Proof.
  rewrite len_obj_entries.
  destruct (GContainerBase.obj_entries self); [reflexivity | simpl; lia].
Qed.

Lemma row_draw_eq self screen :
  GContainerRow.draw self screen
  = (Ok tt,
     pygame.add_all screen
       (frame_call self
        :: flat_map (row_item_calls (pygame.returned screen) self)
             (enumerate (GContainerBase.obj_entries self)))).
Proof.
  unfold GContainerRow.draw. unfold bind at 1. rewrite draw_frame_eq.
  destruct (PyDict.len _ =? 0) eqn:E.
  - apply Z.eqb_eq in E. rewrite (entries_nil_of_len _ E). reflexivity.
  - rewrite (for_each_appends _ _ (fun ret => row_item_calls ret self)).
    + now rewrite add_all_add_all.
    + intros [i o] s. unfold row_item_calls.
      destruct (GContainerRow.culled _ _ _).
      * unfold ret. now rewrite add_all_nil.
      * apply draw_item_eq.
Qed.

Lemma column_draw_eq self screen :
  GContainerColumn.draw self screen
  = (Ok tt,
     pygame.add_all screen
       (frame_call self
        :: flat_map (column_item_calls (pygame.returned screen) self)
             (enumerate (GContainerBase.obj_entries self)))).
Proof.
  unfold GContainerColumn.draw. unfold bind at 1. rewrite draw_frame_eq.
  destruct (PyDict.len _ =? 0) eqn:E.
  - apply Z.eqb_eq in E. rewrite (entries_nil_of_len _ E). reflexivity.
  - rewrite (for_each_appends _ _ (fun ret => column_item_calls ret self)).
    + now rewrite add_all_add_all.
    + intros [i o] s. unfold column_item_calls.
      destruct (GContainerColumn.culled _ _ _).
      * unfold ret. now rewrite add_all_nil.
      * apply draw_item_eq.
Qed.

Lemma grid_draw_eq self screen :
  GcontainerGrid.draw self screen
  = if PyDict.len (GContainerBase._objects self) =? 0
    then (Ok tt, pygame.add_all screen [frame_call self])
    else if GContainerBase.biggest_size self + GContainerBase._spacing self
            =? 0
    then (Raise ZeroDivisionError, pygame.add_all screen [frame_call self])
    else (Ok tt,
          pygame.add_all screen
            (frame_call self
             :: grid_chunk_calls (pygame.returned screen) self
                  (GcontainerGrid.obj_entries_chunked self))).
Proof.
  unfold GcontainerGrid.draw. unfold bind at 1. rewrite draw_frame_eq.
  destruct (PyDict.len _ =? 0); [reflexivity|].
  destruct (_ + _ =? 0); [reflexivity|].
  rewrite (for_each_appends _ _
             (fun ret '(j, o_a) =>
                flat_map (grid_item_calls ret self j) (enumerate o_a))).
  - now rewrite add_all_add_all.
  - intros [j o_a] s.
    apply (for_each_appends _ _ (fun ret => grid_item_calls ret self j)).
    intros [i o] s'. unfold grid_item_calls.
    destruct (GcontainerGrid.culled _ _ _ _).
    + unfold ret. now rewrite add_all_nil.
    + apply draw_item_eq.
Qed.

(** ** Chunking *)
Section Chunks.
Variable A : Type.
Variable n : nat.
Hypothesis n_positive : (1 <= n)%nat.
Implicit Types (l : list A) (steps : nat).




End Chunks.

(** ** Rows: the overflow scenario *)

(** C4: in a row of size (100, 50) at (0, 0) with padding 0, spacing 0, fill
    direction [Left] and overflow [Hidden] that holds five squares of size
    30, the slots of the indices 0 to 4 start at 0, 30, 60, 90, 120; the
    items at 3 and 4, whose slots end at 120 and 150, are culled; and [draw]
    returns having added to the screen, after the frame, the shape and label
    of the items at 0, 1 and 2, in this order, and nothing for the other
    two, each shape over the 30 by 30 square at its slot, each label where
    the rectangle pygame returned for the shape puts it (at the slot's start
    plus 7.5 when that rectangle is the square itself).  [draw] writes
    nothing to the container: all five stay members. *)
Theorem row_hidden_overflow_scenario :
  forall (self : GContainerBase.t) (d0 d1 d2 d3 d4 : GDrawable.t),
    GContainerBase._size self = (100, 50) ->
    GContainerBase._position self = (0, 0) ->
    GContainerBase._padding self = 0 ->
    GContainerBase._spacing self = 0 ->
    GContainerBase._fill_direction self = GFillDirection.Left ->
    GContainerBase._overflow self = GOverflow.Hidden ->
    GContainerBase.obj_entries self = [d0; d1; d2; d3; d4] ->
    is_square30 d0 -> is_square30 d1 -> is_square30 d2 ->
    is_square30 d3 -> is_square30 d4 ->
    let b := GContainerBase.biggest_size self in
    b = 30
    /\ map (GContainerRow.x_l self b) [0; 1; 2; 3; 4] = [0; 30; 60; 90; 120]
    /\ map (fun i => GContainerRow.x_l self b i + b) [3; 4] = [120; 150]
    /\ map (fun i => GContainerRow.culled self b (GContainerRow.x_l self b i))
         [0; 1; 2; 3; 4] = [false; false; false; true; true]
    /\ (forall screen,
          GContainerRow.draw self screen
          = (Ok tt,
             pygame.add_all (snd (GContainerBase.draw_frame self screen))
               (square30_calls (pygame.returned screen) 0 d0
                ++ square30_calls (pygame.returned screen) 30 d1
                ++ square30_calls (pygame.returned screen) 60 d2)))
    /\ (forall screen,
          (forall c, pygame.returned screen c = rect_given c) ->
          GContainerRow.draw self screen
          = (Ok tt,
             pygame.add_all (snd (GContainerBase.draw_frame self screen))
               (flat_map
                  (fun '(x, d) =>
                     [pygame.draw_rect_call (GShape.color (GDrawable.shape d))
                        (pygame.mkRect x 0 30 30) 0;
                      pygame.blit_call (str (GDrawable.id d)) (0, 0, 0)
                        (minus_quarter (x + 15) 30, minus_quarter 15 30)])
                  [(0, d0); (30, d1); (60, d2)])))
    /\ GContainerBase.__len__ self = 5.
Proof.
  intros self d0 d1 d2 d3 d4 Hsize Hpos Hpad Hspc Hfill Hovf Hobjs
    [K0 S0] [K1 S1] [K2 S2] [K3 S3] [K4 S4] b.
  assert (Hb : b = 30).
  { unfold b, GContainerBase.biggest_size. rewrite Hobjs; simpl map.
    now rewrite S0, S1, S2, S3, S4. }
  assert (Hlen : PyDict.len (GContainerBase._objects self) = 5)
    by (rewrite len_obj_entries, Hobjs; reflexivity).
  rewrite Hb. split; [reflexivity|].
  assert (Hx : forall i, GContainerRow.x_l self 30 i = i * 30 + i * 0).
  { intros i. unfold GContainerRow.x_l.
    rewrite Hpos, Hsize, Hfill, Hpad, Hspc; simpl; lia. }
  assert (Hc : forall x, GContainerRow.culled self 30 x = (x + 30 >? 100)).
  { intros x. unfold GContainerRow.culled.
    now rewrite Hpos, Hsize, Hfill, Hovf. }
  assert (Hdraw : forall screen,
            GContainerRow.draw self screen
            = (Ok tt,
               pygame.add_all (snd (GContainerBase.draw_frame self screen))
                 (square30_calls (pygame.returned screen) 0 d0
                  ++ square30_calls (pygame.returned screen) 30 d1
                  ++ square30_calls (pygame.returned screen) 60 d2))).
  { intros screen. rewrite row_draw_eq, draw_frame_eq. simpl snd.
    rewrite add_all_add_all. do 2 f_equal. simpl app. f_equal.
    rewrite Hobjs.
    change (enumerate [d0; d1; d2; d3; d4])
      with [(0, d0); (1, d1); (2, d2); (3, d3); (4, d4)].
    unfold row_item_calls. fold b. rewrite Hb.
    cbn [flat_map]. rewrite !Hc, !Hx.
    change (0 * 30 + 0 * 0 + 30 >? 100) with false.
    change (1 * 30 + 1 * 0 + 30 >? 100) with false.
    change (2 * 30 + 2 * 0 + 30 >? 100) with false.
    change (3 * 30 + 3 * 0 + 30 >? 100) with true.
    change (4 * 30 + 4 * 0 + 30 >? 100) with true.
    cbv iota. unfold GContainerRow.y_l. rewrite Hpos, Hpad.
    unfold item_calls, square30_calls.
    rewrite K0, K1, K2, S0, S1, S2. reflexivity. }
  split; [|split; [|split; [|split; [|split]]]].
  - simpl map. now rewrite !Hx.
  - simpl map. now rewrite !Hx.
  - simpl map. now rewrite !Hc, !Hx.
  - exact Hdraw.
  - intros screen Hret. rewrite Hdraw. do 2 f_equal.
    unfold square30_calls. rewrite !Hret. reflexivity.
  - unfold GContainerBase.__len__. exact Hlen.
Qed.

Lemma row_hidden_overflow_scenario_witness :
  GContainerRow.draw row_scene recording
  = (Ok tt,
     pygame.mkSurface rect_given
       [pygame.draw_rect_call DefaultColors_White
          (pygame.mkRect 0 0 100 50) 2;
        pygame.draw_rect_call (200, 30, 30) (pygame.mkRect 0 0 30 30) 0;
        pygame.blit_call "1" (0, 0, 0) (15 # 2, 15 # 2);
        pygame.draw_rect_call (200, 30, 30) (pygame.mkRect 30 0 30 30) 0;
        pygame.blit_call "2" (0, 0, 0) (75 # 2, 15 # 2);
        pygame.draw_rect_call (200, 30, 30) (pygame.mkRect 60 0 30 30) 0;
        pygame.blit_call "3" (0, 0, 0) (135 # 2, 15 # 2)]).
Proof.
  apply (row_hidden_overflow_scenario row_scene
           (square30 1000 1) (square30 1001 2) (square30 1002 3)
           (square30 1003 4) (square30 1004 5));
    try reflexivity; split; reflexivity.
Defined.

(** ** Grids: culling *)

(** What the culling test of a grid amounts to when it fills from the top:
    the horizontal part compares with the container's width, the vertical
    part with the second coordinate of its position. *)
Lemma grid_culled_from_top self b x_cell y_cell :
  GContainerBase._overflow self = GOverflow.Hidden ->
  (GContainerBase._fill_direction self = GFillDirection.TopLeft ->
   GcontainerGrid.culled self b x_cell y_cell
   = (x_cell + b >? fst (GContainerBase._position self)
                    + fst (GContainerBase._size self))
     || (y_cell + b >? snd (GContainerBase._position self)
                       + snd (GContainerBase._position self)))
  /\ (GContainerBase._fill_direction self = GFillDirection.TopRight ->
      GcontainerGrid.culled self b x_cell y_cell
      = (x_cell <? fst (GContainerBase._position self))
        || (y_cell + b >? snd (GContainerBase._position self)
                          + snd (GContainerBase._position self))).
Proof.
  intros Ho. unfold GcontainerGrid.culled, GContainerBase.size.
  rewrite Ho. destruct (GContainerBase._position self) as [x y].
  split; intros ->; reflexivity.
Qed.

(** When it fills from the bottom, both parts compare with the position. *)
Lemma grid_culled_from_bottom self b x_cell y_cell :
  GContainerBase._overflow self = GOverflow.Hidden ->
  (GContainerBase._fill_direction self = GFillDirection.BottomLeft ->
   GcontainerGrid.culled self b x_cell y_cell
   = (x_cell + b >? fst (GContainerBase._position self)
                    + fst (GContainerBase._size self))
     || (y_cell <? snd (GContainerBase._position self)))
  /\ (GContainerBase._fill_direction self = GFillDirection.BottomRight ->
      GcontainerGrid.culled self b x_cell y_cell
      = (x_cell <? fst (GContainerBase._position self))
        || (y_cell <? snd (GContainerBase._position self))).
Proof.
  intros Ho. unfold GcontainerGrid.culled.
  rewrite Ho. destruct (GContainerBase._position self) as [x y].
  split; intros ->; reflexivity.
Qed.

(** C5, at the grid of size (100, 100) at (0, 0) with padding and spacing 5
    that fills from the top left, hides overflow and holds one square of
    size 30: the cell of that square starts at (5, 5) and its far edges, 35
    and 35, pass neither the right boundary 0 + 100 nor the bottom boundary
    0 + 100, so by C5 it is not culled; the code culls it, and [draw] puts
    nothing but the frame on the screen, whatever the screen. *)
Theorem grid_top_left_culls_cell_inside :
  grid_scene_steps 0 = (Ok grid_scene, 1)
  /\ let b := GContainerBase.biggest_size grid_scene in
     let x_cell := GcontainerGrid.x_l grid_scene b 0 in
     let y_cell := GcontainerGrid.y_l grid_scene b 0 in
     GcontainerGrid.obj_entries_chunked grid_scene = [[square30 1000 1]]
     /\ b = 30 /\ x_cell = 5 /\ y_cell = 5
     /\ (x_cell + b >? 0 + 100) = false
     /\ (y_cell + b >? 0 + 100) = false
     /\ GcontainerGrid.culled grid_scene b x_cell y_cell = true
     /\ forall screen,
          GcontainerGrid.draw grid_scene screen
          = (Ok tt,
             pygame.add_all screen
               [pygame.draw_rect_call DefaultColors_White
                  (pygame.mkRect 0 0 100 100) 2]).
Proof.
  split; [reflexivity|]. cbv zeta.
  do 7 (split; [reflexivity|]).
  intros screen. rewrite grid_draw_eq. reflexivity.
Qed.

(** ** Grids: chunking *)





(** * Further properties *)

(** ** Rows and columns: which members are drawn, and where *)

Lemma ltb_eq_ltb a b c d : (a < b <-> c < d) -> (a <? b) = (c <? d).
Proof.
  intros H. destruct (Z.ltb_spec a b), (Z.ltb_spec c d); try reflexivity; lia.
Qed.

Lemma row_culled_eq self i :
  GContainerBase._overflow self = GOverflow.Hidden ->
  GContainerBase._fill_direction self = GFillDirection.Left
  \/ GContainerBase._fill_direction self = GFillDirection.Right ->
  let b := GContainerBase.biggest_size self in
  GContainerRow.culled self b (GContainerRow.x_l self b i)
  = (fst (GContainerBase._size self) - GContainerBase._padding self - b
     <? i * (b + GContainerBase._spacing self)).
Proof.
  intros Ho Hf b. unfold GContainerRow.culled, GContainerRow.x_l.
  rewrite Ho. destruct (GContainerBase._position self) as [x y].
  destruct (GContainerBase._size self) as [w h]. simpl fst.
  destruct Hf as [-> | ->]; simpl; rewrite ?Z.gtb_ltb; apply ltb_eq_ltb; lia.
Qed.

Lemma column_culled_eq self i :
  GContainerBase._overflow self = GOverflow.Hidden ->
  GContainerBase._fill_direction self = GFillDirection.Left
  \/ GContainerBase._fill_direction self = GFillDirection.Right ->
  let b := GContainerBase.biggest_size self in
  GContainerColumn.culled self b (GContainerColumn.y_l self b i)
  = (snd (GContainerBase._size self) - GContainerBase._padding self - b
     <? i * (b + GContainerBase._spacing self)).
Proof.
  intros Ho Hf b. unfold GContainerColumn.culled, GContainerColumn.y_l.
  rewrite Ho. destruct (GContainerBase._position self) as [x y].
  destruct (GContainerBase._size self) as [w h]. simpl snd.
  destruct Hf as [-> | ->]; simpl; rewrite ?Z.gtb_ltb; apply ltb_eq_ltb; lia.
Qed.

Lemma div_ltb a s i : 0 < s -> (a <? i * s) = (a / s <? i).
Proof.
  intros Hs. apply ltb_eq_ltb. split; intros H.
  - apply Z.div_lt_upper_bound; lia.
  - pose proof (Z.div_mod a s ltac:(lia)).
    pose proof (Z.mod_pos_bound a s Hs). nia.
Qed.

(** X2: in a row or column that hides overflow and fills from [Left] or
    [Right], the member at index [i] is culled exactly when [i] slots of
    biggest_size + spacing exceed what the extent along the axis leaves after
    the padding and one slot: the same test for both fill directions, and
    one in which the position of the container plays no part.  With a
    positive slot step these are the indices above the floor of
    (extent - padding - biggest_size) / (biggest_size + spacing). *)
Theorem row_column_cull_criterion :
  forall (self : GContainerBase.t) (i : Z),
    GContainerBase._overflow self = GOverflow.Hidden ->
    GContainerBase._fill_direction self = GFillDirection.Left
    \/ GContainerBase._fill_direction self = GFillDirection.Right ->
    let b := GContainerBase.biggest_size self in
    let step := b + GContainerBase._spacing self in
    let room_x :=
      fst (GContainerBase._size self) - GContainerBase._padding self - b in
    let room_y :=
      snd (GContainerBase._size self) - GContainerBase._padding self - b in
    GContainerRow.culled self b (GContainerRow.x_l self b i)
    = (room_x <? i * step)
    /\ GContainerColumn.culled self b (GContainerColumn.y_l self b i)
       = (room_y <? i * step)
    /\ (0 < step ->
        GContainerRow.culled self b (GContainerRow.x_l self b i)
        = (room_x / step <? i)
        /\ GContainerColumn.culled self b (GContainerColumn.y_l self b i)
           = (room_y / step <? i)).
Proof.
  intros self i Ho Hf b step room_x room_y.
  pose proof (row_culled_eq self i Ho Hf) as Hr.
  pose proof (column_culled_eq self i Ho Hf) as Hc.
  cbv zeta in Hr, Hc. fold b step room_x in Hr. fold b step room_y in Hc.
  split; [exact Hr | split; [exact Hc | intros Hs]].
  split; [rewrite Hr | rewrite Hc]; now apply div_ltb.
Qed.

Lemma row_column_cull_criterion_witness :
  GContainerRow.culled row_of_three 30 (GContainerRow.x_l row_of_three 30 2)
  = (65 <? 2 * 35)
  /\ GContainerColumn.culled row_of_three 30
       (GContainerColumn.y_l row_of_three 30 0)
     = (15 / 35 <? 0).
Proof.
  split.
  - apply (row_column_cull_criterion row_of_three 2);
      try reflexivity; right; reflexivity.
  - apply (row_column_cull_criterion row_of_three 0);
      try reflexivity; right; reflexivity.
Defined.

Lemma flat_map_until {A C} (q : Z) (f g : Z * A -> list C) :
  (forall i a, f (i, a) = if q <? i then [] else g (i, a)) ->
  forall (l : list A) (m : Z),
    flat_map f (enumerate_from m l)
    = flat_map g (firstn (Z.to_nat (q + 1 - m)) (enumerate_from m l)).
Proof.
  intros Hf. induction l as [|a l IH]; intros m; simpl.
  - now rewrite firstn_nil.
  - rewrite Hf, IH. destruct (Z.ltb_spec q m) as [Hlt | Hge].
    + replace (Z.to_nat (q + 1 - m)) with 0%nat by lia.
      replace (Z.to_nat (q + 1 - (m + 1))) with 0%nat by lia.
      reflexivity.
    + replace (Z.to_nat (q + 1 - m))
        with (S (Z.to_nat (q + 1 - (m + 1)))) by lia.
      reflexivity.
Qed.

(** X3: a row that hides overflow, fills from [Left] or [Right] and has a
    positive slot step draws, after its frame, the first [k] members in
    insertion order, each in the slot of its index, and none of the others,
    where [k] is the floor of (width - padding - biggest_size) /
    (biggest_size + spacing), plus one (none when that is negative).  A
    column does the same with its height.  For each member drawn the screen
    gets its shape over the square of its size at the slot, then its number
    where the rectangle returned for the shape puts it. *)
Theorem hidden_overflow_draws_a_prefix :
  forall (self : GContainerBase.t),
    GContainerBase._overflow self = GOverflow.Hidden ->
    GContainerBase._fill_direction self = GFillDirection.Left
    \/ GContainerBase._fill_direction self = GFillDirection.Right ->
    let b := GContainerBase.biggest_size self in
    let step := b + GContainerBase._spacing self in
    0 < step ->
    let fit extent :=
      Z.to_nat ((extent - GContainerBase._padding self - b) / step + 1) in
    forall screen,
      GContainerRow.draw self screen
      = (Ok tt,
         pygame.add_all screen
           (frame_call self
            :: flat_map (fun '(i, o) =>
                           item_calls (pygame.returned screen) b
                             (GContainerRow.x_l self b i)
                             (GContainerRow.y_l self) o)
                 (firstn (fit (fst (GContainerBase._size self)))
                    (enumerate (GContainerBase.obj_entries self)))))
      /\ GContainerColumn.draw self screen
         = (Ok tt,
            pygame.add_all screen
              (frame_call self
               :: flat_map (fun '(i, o) =>
                              item_calls (pygame.returned screen) b
                                (GContainerColumn.x_l self)
                                (GContainerColumn.y_l self b i) o)
                    (firstn (fit (snd (GContainerBase._size self)))
                       (enumerate (GContainerBase.obj_entries self))))).
Proof.
  intros self Ho Hf b step Hs fit screen. split.
  - rewrite row_draw_eq. do 3 f_equal. unfold enumerate, fit.
    rewrite <- (Z.sub_0_r (_ / step + 1)).
    apply flat_map_until. intros i a. unfold row_item_calls. fold b.
    pose proof (row_culled_eq self i Ho Hf) as H. cbv zeta in H.
    fold b step in H. rewrite H, (div_ltb _ _ _ Hs). reflexivity.
  - rewrite column_draw_eq. do 3 f_equal. unfold enumerate, fit.
    rewrite <- (Z.sub_0_r (_ / step + 1)).
    apply flat_map_until. intros i a. unfold column_item_calls. fold b.
    pose proof (column_culled_eq self i Ho Hf) as H. cbv zeta in H.
    fold b step in H. rewrite H, (div_ltb _ _ _ Hs). reflexivity.
Qed.

Lemma hidden_overflow_draws_a_prefix_witness :
  pygame.calls (snd (GContainerRow.draw row_of_three recording))
  = frame_call row_of_three
      :: item_calls rect_given 30 75 25 (square30 1000 1)
      ++ item_calls rect_given 30 40 25 (square30 1001 2).
Proof.
  rewrite (proj1 (hidden_overflow_draws_a_prefix row_of_three
                    eq_refl (or_intror eq_refl) eq_refl recording)).
  reflexivity.
Defined.

Lemma enumerate_from_In {A} (l : list A) m i (a : A) :
  In (i, a) (enumerate_from m l) -> m <= i /\ In a l.
Proof.
  revert m. induction l as [|a' l IH]; simpl; intros m H; [destruct H|].
  destruct H as [H | H].
  - injection H as <- <-. split; [lia | now left].
  - apply IH in H as [H1 H2]. split; [lia | now right].
Qed.

Lemma length_enumerate_from {A} (l : list A) m :
  List.length (enumerate_from m l) = List.length l.
Proof. revert m. induction l; simpl; intros; [reflexivity | now rewrite IHl]. Qed.

Lemma biggest_size_nonneg self :
  GContainerBase.obj_entries self <> [] ->
  (forall o, In o (GContainerBase.obj_entries self) ->
             0 <= GShape.size (GDrawable.shape o)) ->
  0 <= GContainerBase.biggest_size self.
Proof.
  intros Hne Hpos. destruct (biggest_size_is_max self Hne) as [[o [Ho E]] _].
  rewrite E. now apply Hpos.
Qed.

Lemma In_item_calls_rect ret b x y o c r :
  In c (item_calls ret b x y o) -> shape_rect c = Some r ->
  r = pygame.mkRect x y (GShape.size (GDrawable.shape o))
        (GShape.size (GDrawable.shape o)).
Proof.
  unfold item_calls. intros [<- | [<- | []]]; simpl; [|discriminate].
  destruct (is_Square _); simpl; congruence.
Qed.

(** X4: a row that hides overflow and fills from [Left] or [Right], with
    padding and spacing that are not negative and no member of negative
    size, draws no shape that sticks out of it to the left or to the right:
    every shape rectangle after the frame lies between the left edge and the
    right edge of the container.  A column, likewise, draws none that sticks
    out above or below.  This is so on every screen, whatever rectangles
    its calls return. *)
Theorem hidden_overflow_draws_inside :
  forall (self : GContainerBase.t),
    GContainerBase._overflow self = GOverflow.Hidden ->
    GContainerBase._fill_direction self = GFillDirection.Left
    \/ GContainerBase._fill_direction self = GFillDirection.Right ->
    0 <= GContainerBase._padding self ->
    0 <= GContainerBase._spacing self ->
    (forall o, In o (GContainerBase.obj_entries self) ->
               0 <= GShape.size (GDrawable.shape o)) ->
    forall (ret : pygame.DrawCall -> pygame.Rect)
           (c : pygame.DrawCall) (r : pygame.Rect),
      shape_rect c = Some r ->
      (In c (tl (pygame.calls
                   (snd (GContainerRow.draw self (pygame.mkSurface ret [])))))
       ->
       fst (GContainerBase._position self) <= pygame.left r
       /\ pygame.left r + pygame.width r
          <= fst (GContainerBase._position self)
             + fst (GContainerBase._size self))
      /\ (In c (tl (pygame.calls
                      (snd (GContainerColumn.draw self
                              (pygame.mkSurface ret []))))) ->
          snd (GContainerBase._position self) <= pygame.top r
          /\ pygame.top r + pygame.height r
             <= snd (GContainerBase._position self)
                + snd (GContainerBase._size self)).
Proof.
  intros self Ho Hf Hpad Hsp Hpos ret c r Hr. split; intros Hin.
  - rewrite row_draw_eq in Hin. simpl in Hin.
    apply in_flat_map in Hin as [[i o] [Hio Hin]].
    apply enumerate_from_In in Hio as [Hi Ho'].
    assert (Hne : GContainerBase.obj_entries self <> [])
      by (intros E; rewrite E in Ho'; destruct Ho').
    pose proof (biggest_size_nonneg self Hne Hpos) as Hb.
    destruct (biggest_size_is_max self Hne) as [_ Hmax].
    specialize (Hmax o Ho'). specialize (Hpos o Ho').
    unfold row_item_calls in Hin.
    pose proof (row_culled_eq self i Ho Hf) as Hc. cbv zeta in Hc.
    destruct (GContainerRow.culled _ _ _); [destruct Hin|].
    symmetry in Hc. apply Z.ltb_ge in Hc.
    rewrite (In_item_calls_rect _ _ _ _ _ _ _ Hin Hr). simpl.
    unfold GContainerRow.x_l.
    destruct (GContainerBase._position self) as [x y].
    destruct (GContainerBase._size self) as [w h]. simpl in *.
    destruct Hf as [-> | ->]; simpl; nia.
  - rewrite column_draw_eq in Hin. simpl in Hin.
    apply in_flat_map in Hin as [[i o] [Hio Hin]].
    apply enumerate_from_In in Hio as [Hi Ho'].
    assert (Hne : GContainerBase.obj_entries self <> [])
      by (intros E; rewrite E in Ho'; destruct Ho').
    pose proof (biggest_size_nonneg self Hne Hpos) as Hb.
    destruct (biggest_size_is_max self Hne) as [_ Hmax].
    specialize (Hmax o Ho'). specialize (Hpos o Ho').
    unfold column_item_calls in Hin.
    pose proof (column_culled_eq self i Ho Hf) as Hc. cbv zeta in Hc.
    destruct (GContainerColumn.culled _ _ _); [destruct Hin|].
    symmetry in Hc. apply Z.ltb_ge in Hc.
    rewrite (In_item_calls_rect _ _ _ _ _ _ _ Hin Hr). simpl.
    unfold GContainerColumn.y_l.
    destruct (GContainerBase._position self) as [x y].
    destruct (GContainerBase._size self) as [w h]. simpl in *.
    destruct Hf as [-> | ->]; simpl; nia.
Qed.

Lemma hidden_overflow_draws_inside_witness :
  10 <= 75 /\ 75 + 30 <= 10 + 100.
Proof.
  assert (Hpos : forall o, In o (GContainerBase.obj_entries row_of_three) ->
                           0 <= GShape.size (GDrawable.shape o)).
  { simpl. intros o [<- | [<- | [<- | []]]]; simpl; lia. }
  assert (Hpad : 0 <= GContainerBase._padding row_of_three)
    by (simpl; lia).
  assert (Hsp : 0 <= GContainerBase._spacing row_of_three)
    by (simpl; lia).
  destruct (hidden_overflow_draws_inside row_of_three eq_refl
              (or_intror eq_refl) Hpad Hsp Hpos rect_given
              (pygame.draw_rect_call (200, 30, 30)
                 (pygame.mkRect 75 25 30 30) 0)
              (pygame.mkRect 75 25 30 30) eq_refl) as [H _].
  apply H. simpl. left. reflexivity.
Defined.

(** X5: in a row or a column with spacing that is not negative and no member
    of negative size, the squares of two members do not overlap along the
    axis: filling from [Left], the member of the smaller index ends before
    the other begins; filling the other way, the member of the greater index
    ends before the other begins. *)
Theorem members_do_not_overlap :
  forall (self : GContainerBase.t) (i j : Z) (o_i o_j : GDrawable.t),
    In (i, o_i) (enumerate (GContainerBase.obj_entries self)) ->
    In (j, o_j) (enumerate (GContainerBase.obj_entries self)) ->
    i < j ->
    0 <= GContainerBase._spacing self ->
    (forall o, In o (GContainerBase.obj_entries self) ->
               0 <= GShape.size (GDrawable.shape o)) ->
    let b := GContainerBase.biggest_size self in
    (GContainerBase._fill_direction self = GFillDirection.Left ->
     GContainerRow.x_l self b i + GShape.size (GDrawable.shape o_i)
     <= GContainerRow.x_l self b j
     /\ GContainerColumn.y_l self b i + GShape.size (GDrawable.shape o_i)
        <= GContainerColumn.y_l self b j)
    /\ (GContainerBase._fill_direction self <> GFillDirection.Left ->
        GContainerRow.x_l self b j + GShape.size (GDrawable.shape o_j)
        <= GContainerRow.x_l self b i
        /\ GContainerColumn.y_l self b j + GShape.size (GDrawable.shape o_j)
           <= GContainerColumn.y_l self b i).
Proof.
  intros self i j o_i o_j Hi Hj Hij Hsp Hpos b.
  apply enumerate_from_In in Hi as [Hi0 Hi], Hj as [Hj0 Hj].
  assert (Hne : GContainerBase.obj_entries self <> [])
    by (intros E; rewrite E in Hi; destruct Hi).
  pose proof (biggest_size_nonneg self Hne Hpos) as Hb.
  destruct (biggest_size_is_max self Hne) as [_ Hmax].
  pose proof (Hmax o_i Hi) as Mi. pose proof (Hmax o_j Hj) as Mj.
  fold b in Hb, Mi, Mj.
  unfold GContainerRow.x_l, GContainerColumn.y_l.
  destruct (GContainerBase._position self) as [x y].
  destruct (GContainerBase._size self) as [w h].
  split; intros Hf.
  - rewrite Hf; simpl. split; nia.
  - destruct (GContainerBase._fill_direction self); simpl;
      try (exfalso; now apply Hf); split; nia.
Qed.

Lemma members_do_not_overlap_witness :
  GContainerRow.x_l row_of_three 30 1 + 30 <= GContainerRow.x_l row_of_three 30 0.
Proof.
  assert (Hpos : forall o, In o (GContainerBase.obj_entries row_of_three) ->
                           0 <= GShape.size (GDrawable.shape o)).
  { simpl. intros o [<- | [<- | [<- | []]]]; simpl; lia. }
  assert (Hsp : 0 <= GContainerBase._spacing row_of_three)
    by (simpl; lia).
  assert (H0 : In (0, square30 1000 1)
                 (enumerate (GContainerBase.obj_entries row_of_three)))
    by (simpl; left; reflexivity).
  assert (H1 : In (1, square30 1001 2)
                 (enumerate (GContainerBase.obj_entries row_of_three)))
    by (simpl; right; left; reflexivity).
  assert (H01 : 0 < 1) by lia.
  destruct (members_do_not_overlap row_of_three 0 1 _ _ H0 H1 H01 Hsp Hpos)
    as [_ H].
  apply H. discriminate.
Defined.

Lemma length_flat_map_pairs {A C} (f : A -> list C) (l : list A) :
  (forall a, List.length (f a) = 2%nat) ->
  List.length (flat_map f l) = (2 * List.length l)%nat.
Proof.
  intros Hf. induction l as [|a l IH]; simpl; [reflexivity|].
  rewrite length_app, Hf, IH. lia.
Qed.

(** X6: with overflow [Visible], a row and a column draw every member, in
    insertion order, each in the slot of its index, whatever the size of the
    container: after the frame come, for each member, its shape over the
    square of its size at the slot and its number where the rectangle
    returned for the shape puts it; one frame and two calls a member are
    added in all. *)
Theorem visible_overflow_draws_every_member :
  forall (self : GContainerBase.t) (screen : pygame.Surface),
    GContainerBase._overflow self = GOverflow.Visible ->
    let b := GContainerBase.biggest_size self in
    GContainerRow.draw self screen
    = (Ok tt,
       pygame.add_all screen
         (frame_call self
          :: flat_map (fun '(i, o) =>
                         item_calls (pygame.returned screen) b
                           (GContainerRow.x_l self b i)
                           (GContainerRow.y_l self) o)
               (enumerate (GContainerBase.obj_entries self))))
    /\ GContainerColumn.draw self screen
       = (Ok tt,
          pygame.add_all screen
            (frame_call self
             :: flat_map (fun '(i, o) =>
                            item_calls (pygame.returned screen) b
                              (GContainerColumn.x_l self)
                              (GContainerColumn.y_l self b i) o)
                  (enumerate (GContainerBase.obj_entries self))))
    /\ Z.of_nat (List.length
                   (pygame.calls (snd (GContainerRow.draw self screen))))
       = Z.of_nat (List.length (pygame.calls screen))
         + 1 + 2 * GContainerBase.__len__ self
    /\ Z.of_nat (List.length
                   (pygame.calls (snd (GContainerColumn.draw self screen))))
       = Z.of_nat (List.length (pygame.calls screen))
         + 1 + 2 * GContainerBase.__len__ self.
Proof.
  intros self screen Ho b.
  assert (Er : forall p, row_item_calls (pygame.returned screen) self p
                         = (let '(i, o) := p in
                            item_calls (pygame.returned screen) b
                              (GContainerRow.x_l self b i)
                              (GContainerRow.y_l self) o)).
  { intros [i o]. unfold row_item_calls, GContainerRow.culled.
    now rewrite Ho. }
  assert (Ec : forall p, column_item_calls (pygame.returned screen) self p
                         = (let '(i, o) := p in
                            item_calls (pygame.returned screen) b
                              (GContainerColumn.x_l self)
                              (GContainerColumn.y_l self b i) o)).
  { intros [i o]. unfold column_item_calls, GContainerColumn.culled.
    now rewrite Ho. }
  rewrite !row_draw_eq, !column_draw_eq.
  rewrite (flat_map_ext _ _ Er), (flat_map_ext _ _ Ec).
  unfold GContainerBase.__len__. rewrite len_obj_entries.
  split; [reflexivity|]. split; [reflexivity|].
  cbn [snd pygame.calls pygame.add_all].
  split; rewrite length_app; cbn [List.length];
    (rewrite length_flat_map_pairs; [|now intros [i o]]);
    unfold enumerate; rewrite length_enumerate_from; lia.
Qed.

Lemma visible_overflow_draws_every_member_witness :
  Z.of_nat
    (List.length
       (pygame.calls
          (snd (GContainerRow.draw
                  (GContainerBase.set__overflow GOverflow.Visible row_scene)
                  recording))))
  = 0 + 1 + 2 * 5.
Proof.
  apply (visible_overflow_draws_every_member
           (GContainerBase.set__overflow GOverflow.Visible row_scene)
           recording).
  reflexivity.
Defined.

(** ** A column is a row mirrored in the diagonal *)

Lemma biggest_size_transpose self :
  GContainerBase.biggest_size (transpose self)
  = GContainerBase.biggest_size self.
Proof. reflexivity. Qed.

Lemma transpose_call_twice c : transpose_call (transpose_call c) = c.
Proof. destruct c as [? [] ?|? [] ?|? ? []]; reflexivity. Qed.

Lemma transpose_item_calls screen b x y o :
  map transpose_call
    (item_calls (pygame.returned (transpose_surface screen)) b x y o)
  = item_calls (pygame.returned screen) b y x o.
Proof.
  unfold item_calls, label_dest, transpose_surface. simpl.
  destruct (is_Square _); simpl;
    now destruct (pygame.returned screen _).
Qed.

Lemma map_flat_map {A B C} (f : B -> C) (g : A -> list B) (l : list A) :
  map f (flat_map g l) = flat_map (fun a => map f (g a)) l.
Proof.
  induction l as [|a l IH]; simpl; [reflexivity|].
  now rewrite map_app, IH.
Qed.

(** X7: [GContainerColumn.draw] is [GContainerRow.draw] mirrored in the
    diagonal.  On any screen it returns having added the mirror images of
    the calls that [GContainerRow.draw], on the mirrored screen with
    nothing drawn yet, adds for the container with width and height, and
    the two coordinates of its position, exchanged: rectangles with left
    and top, and width and height, exchanged, numbers with the two
    coordinates of their place exchanged.  What the calls on the screen
    return is left as it was. *)
Theorem column_draw_mirrors_row_draw :
  forall (self : GContainerBase.t) (screen : pygame.Surface),
    let mirrored :=
      pygame.mkSurface (pygame.returned (transpose_surface screen)) [] in
    fst (GContainerColumn.draw self screen) = Ok tt
    /\ pygame.calls (snd (GContainerColumn.draw self screen))
       = pygame.calls screen
         ++ map transpose_call
              (pygame.calls
                 (snd (GContainerRow.draw (transpose self) mirrored)))
    /\ pygame.returned (snd (GContainerColumn.draw self screen))
       = pygame.returned screen.
Proof.
  intros self screen mirrored.
  rewrite column_draw_eq, row_draw_eq. simpl.
  split; [reflexivity|]. split; [|reflexivity].
  do 2 f_equal.
  - unfold frame_call, transpose. simpl.
    destruct (GContainerBase._position self) as [x y].
    destruct (GContainerBase._size self) as [w h]. simpl.
    now destruct (is_Square _).
  - rewrite map_flat_map. apply flat_map_ext. intros [i o].
    unfold row_item_calls, column_item_calls.
    rewrite biggest_size_transpose.
    assert (Ec : GContainerRow.culled (transpose self)
                   (GContainerBase.biggest_size self)
                   (GContainerRow.x_l (transpose self)
                      (GContainerBase.biggest_size self) i)
                 = GContainerColumn.culled self
                     (GContainerBase.biggest_size self)
                     (GContainerColumn.y_l self
                        (GContainerBase.biggest_size self) i)).
    { unfold GContainerRow.culled, GContainerColumn.culled,
        GContainerRow.x_l, GContainerColumn.y_l, transpose. simpl.
      destruct (GContainerBase._position self) as [x y].
      destruct (GContainerBase._size self) as [w h]. reflexivity. }
    rewrite Ec. destruct (GContainerColumn.culled _ _ _); [reflexivity|].
    change (fun c => transpose_rect (pygame.returned screen (transpose_call c)))
      with (pygame.returned (transpose_surface screen)).
    rewrite transpose_item_calls. f_equal.
    unfold GContainerRow.x_l, GContainerColumn.y_l, transpose. simpl.
    destruct (GContainerBase._position self) as [x y].
    destruct (GContainerBase._size self) as [w h]. reflexivity.
Qed.

(** ** Invariants of a container in use *)

Section DictOrder.
Variable V : Type.
Implicit Types (d : PyDict.t V) (k : string) (v : V).

Lemma contains_In k d : PyDict.contains k d = true <-> In k (map fst d).
Proof.
  unfold PyDict.contains. rewrite existsb_exists, in_map_iff. split.
  - intros [kv [Hin E]]. apply String.eqb_eq in E. now exists kv.
  - intros [kv [E Hin]]. exists kv. split; [exact Hin|].
    now apply String.eqb_eq.
Qed.

Lemma contains_notin k d : PyDict.contains k d = false <-> ~ In k (map fst d).
Proof.
  rewrite <- contains_In. destruct (PyDict.contains k d); split; congruence.
Qed.

Lemma set_absent k v d :
  PyDict.contains k d = false -> PyDict.set k v d = d ++ [(k, v)].
Proof.
  induction d as [|[k' v'] d IH]; simpl; intros H; [reflexivity|].
  apply orb_false_iff in H as [E H]. rewrite E. now rewrite IH.
Qed.

Lemma del_keys_incl k x d :
  In x (map fst (PyDict.del k d)) -> In x (map fst d).
Proof.
  induction d as [|[k' v'] d IH]; simpl; [tauto|].
  destruct (String.eqb k k'); simpl; tauto.
Qed.

Lemma del_NoDup k d : NoDup (map fst d) -> NoDup (map fst (PyDict.del k d)).
Proof.
  induction d as [|[k' v'] d IH]; simpl; intros H; [constructor|].
  inversion H as [|? ? Hn Hd]; subst.
  destruct (String.eqb k k'); simpl; [exact Hd|].
  constructor; [|now apply IH].
  intros Hin. apply Hn. eapply del_keys_incl; eassumption.
Qed.

Lemma del_Forall (P : string * V -> Prop) k d :
  Forall P d -> Forall P (PyDict.del k d).
Proof.
  induction d as [|[k' v'] d IH]; simpl; intros H; [constructor|].
  inversion H; subst. destruct (String.eqb k k'); [assumption|].
  constructor; [assumption | now apply IH].
Qed.

Lemma del_absent k d :
  ~ In k (map fst d) -> PyDict.del k d = d.
Proof.
  induction d as [|[k' v'] d IH]; simpl; intros H; [reflexivity|].
  destruct (String.eqb_spec k k') as [-> | Hne]; [tauto|].
  rewrite IH; tauto.
Qed.

Lemma del_not_contains k d :
  NoDup (map fst d) -> PyDict.contains k (PyDict.del k d) = false.
Proof.
  intros Hd. apply contains_notin.
  induction d as [|[k' v'] d IH]; simpl; [tauto|].
  inversion Hd as [|? ? Hn Hd']; subst.
  destruct (String.eqb_spec k k') as [-> | Hne]; [exact Hn|].
  simpl. intros [E | Hin]; [congruence | now apply IH].
Qed.

Lemma length_del_present k d :
  PyDict.contains k d = true ->
  S (List.length (PyDict.del k d)) = List.length d.
Proof.
  induction d as [|[k' v'] d IH]; simpl; intros H; [discriminate|].
  destruct (String.eqb k k'); simpl in *; [reflexivity|].
  now rewrite IH.
Qed.
End DictOrder.

Lemma enter_keeps_keyed d0 objs :
  keyed objs ->
  PyDict.contains (GContainerBase.key d0) objs = false ->
  keyed (PyDict.set (GContainerBase.key d0) d0 objs).
Proof.
  intros [Hnd Hk] Hc. rewrite (set_absent _ _ d0 _ Hc). split.
  - rewrite map_app. simpl.
    apply NoDup_app; [exact Hnd | repeat constructor; intros [] |].
    intros x Hx [<- | []]. apply contains_notin in Hc. contradiction.
  - apply Forall_app. split; [exact Hk | now repeat constructor].
Qed.

Lemma leave_keeps_keyed k objs : keyed objs -> keyed (PyDict.del k objs).
Proof.
  intros [Hnd Hk]. split; [now apply del_NoDup | now apply del_Forall].
Qed.

Lemma native_fill_setter cls f self :
  native_fill cls
    (GContainerBase._fill_direction (snd (fill_direction_setter cls f self)))
  = true.
Proof. destruct cls, f; reflexivity. Qed.

Ltac split_setter :=
  match goal with
  | |- context [if ?c then _ else _] => destruct c eqn:?
  end.

Lemma perform_keeps_settled cls c self :
  settled cls self -> settled cls (snd (perform cls c self)).
Proof.
  intros (Hs & Hf & Hk).
  assert (Same : settled cls self) by (split; [|split]; assumption).
  destruct c; simpl perform.
  - unfold GContainerBase.size_setter; split_setter; exact Same.
  - unfold GContainerBase.position_setter; run.
    repeat split_setter; exact Same.
  - unfold GContainerBase.shape_setter; split_setter; exact Same.
  - exact Same.
  - split; [|split]; [| apply native_fill_setter |];
      destruct cls; simpl; assumption.
  - exact Same.
  - unfold GContainerBase.padding_setter; split_setter; exact Same.
  - unfold GContainerBase.spacing_setter; split_setter; simpl;
      [exact Same|].
    split; [simpl; lia | split; assumption].
  - unfold GContainerBase.enter; run. split_setter; simpl;
      [exact Same|].
    split; [exact Hs | split; [exact Hf | now apply enter_keeps_keyed]].
  - unfold GContainerBase.leave; run. split_setter; simpl;
      [exact Same|].
    split; [exact Hs | split; [exact Hf | now apply leave_keeps_keyed]].
Qed.

Lemma perform_keeps_id cls c self :
  GContainerBase._id (snd (perform cls c self)) = GContainerBase._id self.
Proof.
  destruct c; simpl perform.
  - unfold GContainerBase.size_setter; now split_setter.
  - unfold GContainerBase.position_setter; run. now repeat split_setter.
  - unfold GContainerBase.shape_setter; now split_setter.
  - reflexivity.
  - now destruct cls.
  - reflexivity.
  - unfold GContainerBase.padding_setter; now split_setter.
  - unfold GContainerBase.spacing_setter; now split_setter.
  - unfold GContainerBase.enter; run. now split_setter.
  - unfold GContainerBase.leave; run. now split_setter.
Qed.

(** X8: a constructor of any class, with any arguments, returns a container,
    and whatever methods are then called on it, in whatever order and
    whether they raise or not, the container keeps the number the
    constructor gave it, its spacing is not negative, its fill direction is
    one its class collapses to ([Left] or [Right] for a row or column, a
    corner for a grid), and its members are filed under distinct keys, each
    under its own. *)
Theorem container_in_use_stays_settled :
  forall (a : ConstructorCall) (n : Z),
  exists self,
    construct_call a n = (Ok self, n + 1)
    /\ forall cs : list MethodCall,
         settled (new_class a) (perform_all (new_class a) cs self)
         /\ GContainerBase._id (perform_all (new_class a) cs self) = n.
Proof.
  intros [cls size position shape align fill overflow padding] n.
  unfold construct_call; simpl.
  destruct (construct_eq cls size position shape align fill overflow padding n)
    as [g [E Hg]].
  eexists; split; [exact E|].
  assert (H0 : settled cls
                 (GContainerBase.mk n [] size position
                    (GContainerBase._set_shape shape) align g overflow
                    padding 5)).
  { split; [simpl; lia | split].
    - pose proof (native_fill_setter cls fill
                    (GContainerBase.mk n [] size position
                       (GContainerBase._set_shape shape) align
                       GFillDirection.TopLeft overflow padding 5)) as H.
      now rewrite Hg in H.
    - split; constructor. }
  assert (I0 : GContainerBase._id
                 (GContainerBase.mk n [] size position
                    (GContainerBase._set_shape shape) align g overflow
                    padding 5) = n) by reflexivity.
  revert H0 I0.
  generalize (GContainerBase.mk n [] size position
                (GContainerBase._set_shape shape) align g overflow padding 5).
  intros self Hs Hi cs. revert self Hs Hi.
  induction cs as [|c cs IH]; intros self Hs Hi; simpl; [now split|].
  apply IH; [now apply perform_keeps_settled|].
  now rewrite perform_keeps_id.
Qed.

Lemma perform_keeps_checked cls c self :
  checked self -> checked (snd (perform cls c self)).
Proof.
  intros Same. pose proof Same as (Hw & Hh & Hp & Hk & Hb).
  destruct c; simpl perform.
  - unfold GContainerBase.size_setter; split_setter; [exact Same|].
    apply orb_false_iff in Heqb as [H1 H2].
    apply Z.leb_gt in H1, H2. now repeat split.
  - unfold GContainerBase.position_setter; run.
    repeat split_setter; exact Same.
  - unfold GContainerBase.shape_setter.
    destruct (existsb _ _) eqn:E; simpl; [|exact Same].
    apply known_kind_test in E.
    destruct (Z.ltb_spec (GShape.border_size s) (-1)).
    + repeat split; simpl; try assumption; lia.
    + repeat split; simpl; try assumption.
  - exact Same.
  - destruct cls; exact Same.
  - exact Same.
  - unfold GContainerBase.padding_setter.
    destruct (Z.ltb_spec p 0); [exact Same|].
    repeat split; simpl; assumption.
  - unfold GContainerBase.spacing_setter; split_setter; exact Same.
  - unfold GContainerBase.enter; run. split_setter; exact Same.
  - unfold GContainerBase.leave; run. split_setter; exact Same.
Qed.

(** X9: a container whose size is positive in both dimensions, whose padding
    is not negative and whose shape is of a known kind with border size -1
    or more stays so under every sequence of method calls, those that raise
    included: the setters never store what they are there to refuse. *)
Theorem method_calls_keep_checked :
  forall (cls : ContainerClass) (cs : list MethodCall)
         (self : GContainerBase.t),
    checked self -> checked (perform_all cls cs self).
Proof.
  intros cls cs. induction cs as [|c cs IH]; intros self H; simpl;
    [exact H|].
  apply IH. now apply perform_keeps_checked.
Qed.

Lemma method_calls_keep_checked_witness :
  checked
    (perform_all Row
       [assign_size (0, 10); assign_padding (-1); assign_size (30, 40);
        assign_shape (GShape.GShape (Foreign "Triangle") 10 2
                        DefaultColors_White);
        assign_shape (GShape.GShape (Member GShapeType.Ellipse) 10 (-7)
                        DefaultColors_White)]
       plain_row).
Proof.
  apply (method_calls_keep_checked Row).
  unfold checked, known_kind; simpl.
  repeat split; try lia; try discriminate. left; reflexivity.
Defined.

(** X10: the rule that a container aligned [NoAlign] has no negative
    coordinate is not kept, because assigning the alignment does not look at
    the position: on any container, assigning alignment [Center], then any
    position, then alignment [NoAlign] raises nowhere and leaves the
    container aligned [NoAlign] at that position. *)
Theorem align_setter_does_not_recheck_position :
  forall (self : GContainerBase.t) (p : Z * Z),
    let s1 := snd (GContainerBase.align_setter GAlign.Center self) in
    let s2 := snd (GContainerBase.position_setter p s1) in
    let s3 := snd (GContainerBase.align_setter GAlign.NoAlign s2) in
    fst (GContainerBase.align_setter GAlign.Center self) = Ok tt
    /\ fst (GContainerBase.position_setter p s1) = Ok tt
    /\ fst (GContainerBase.align_setter GAlign.NoAlign s2) = Ok tt
    /\ GContainerBase.align s3 = GAlign.NoAlign
    /\ GContainerBase.position s3 = p
    /\ s3 = GContainerBase.set__align GAlign.NoAlign
              (GContainerBase.set__position p self).
Proof.
  intros self p. destruct self. repeat split.
Qed.

(** ** Numbers of containers *)

Lemma construct_call_id a n :
  exists self,
    construct_call a n = (Ok self, n + 1) /\ GContainerBase._id self = n.
Proof.
  destruct a as [cls size position shape align fill overflow padding].
  unfold construct_call; simpl.
  destruct (construct_eq cls size position shape align fill overflow padding n)
    as [g [E _]].
  eexists; split; [exact E | reflexivity].
Qed.

(** X11: constructor calls made one after the other from a counter at [n],
    of whatever classes and with whatever arguments, all return, leave the
    counter advanced by their number, and give the containers the numbers
    [n], [n + 1], ... in the order of construction; so no two of them have
    the same [id]. *)
Theorem containers_are_numbered_consecutively :
  forall (l : list ConstructorCall) (n : Z),
  exists selves,
    construct_all l n = (Ok selves, n + Z.of_nat (List.length l))
    /\ map GContainerBase.id selves
       = map (fun k => n + Z.of_nat k) (seq 0 (List.length l))
    /\ NoDup (map GContainerBase.id selves).
Proof.
  assert (H : forall l n, exists selves,
             construct_all l n = (Ok selves, n + Z.of_nat (List.length l))
             /\ map GContainerBase.id selves
                = map (fun k => n + Z.of_nat k) (seq 0 (List.length l))).
  { induction l as [|a l IH]; intros n.
    - exists []. split; [|reflexivity]. simpl. unfold ret. f_equal. lia.
    - destruct (construct_call_id a n) as [self [E Hid]].
      destruct (IH (n + 1)) as [rest [Er Hr]].
      exists (self :: rest). split.
      + simpl construct_all. unfold bind. rewrite E, Er. unfold ret.
        f_equal. simpl List.length. lia.
      + simpl. unfold GContainerBase.id at 1. rewrite Hid, Hr. f_equal.
        * lia.
        * rewrite <- seq_shift, map_map. apply map_ext. intros k. lia. }
  intros l n. destruct (H l n) as [selves [E Hm]].
  exists selves. split; [exact E|]. split; [exact Hm|].
  rewrite Hm. apply Finite.Injective_map_NoDup; [|apply seq_NoDup].
  intros x y Hxy. lia.
Qed.

(** ** Padding and spacing *)

(** X12: assigning padding or spacing raises [ValueError], with the
    container unchanged, exactly for a negative value; zero and every
    positive value are stored. *)
Theorem padding_and_spacing_setters :
  forall (self : GContainerBase.t) (v : Z),
    (v < 0 ->
     GContainerBase.padding_setter v self
     = (Raise (ValueError "Negative padding supplied"), self)
     /\ GContainerBase.spacing_setter v self
        = (Raise (ValueError "Negative spacing supplied"), self))
    /\ (0 <= v ->
        GContainerBase.padding_setter v self
        = (Ok tt, GContainerBase.set__padding v self)
        /\ GContainerBase.padding (GContainerBase.set__padding v self) = v
        /\ GContainerBase.spacing_setter v self
           = (Ok tt, GContainerBase.set__spacing v self)
        /\ GContainerBase.spacing (GContainerBase.set__spacing v self) = v).
Proof.
  intros self v.
  unfold GContainerBase.padding_setter, GContainerBase.spacing_setter.
  destruct (Z.ltb_spec v 0); split; intros Hv; try lia; repeat split.
Qed.

Lemma padding_and_spacing_setters_witness :
  GContainerBase.padding_setter (-1) plain_row
  = (Raise (ValueError "Negative padding supplied"), plain_row)
  /\ GContainerBase.spacing_setter 0 plain_row
     = (Ok tt, GContainerBase.set__spacing 0 plain_row).
Proof.
  split.
  - apply (padding_and_spacing_setters plain_row (-1)). lia.
  - apply (padding_and_spacing_setters plain_row 0). lia.
Defined.

(** ** Order of the members *)

Lemma values_del_keyed k objs :
  keyed objs ->
  PyDict.values (PyDict.del k objs)
  = filter (fun o => negb (String.eqb k (GContainerBase.key o)))
      (PyDict.values objs).
Proof.
  unfold PyDict.values. intros [Hnd Hk].
  induction objs as [|[k' v'] objs IH]; simpl; [reflexivity|].
  inversion Hnd as [|? ? Hn Hnd']; subst.
  inversion Hk as [|? ? Hk1 Hk']; subst. simpl in Hk1. subst k'.
  destruct (String.eqb_spec k (GContainerBase.key v')) as [-> | Hne]; simpl.
  - rewrite <- (IH Hnd' Hk'). now rewrite del_absent.
  - now rewrite (IH Hnd' Hk').
Qed.

(** X13: members are drawn in the order of [obj_entries], and in a container
    whose members are filed each under its own key, [enter] of a drawable
    that is not inside puts it last in that order, while [leave] of one that
    is inside takes out that drawable and no other, keeps the order of the
    rest, makes the container one shorter and leaves the drawable free to
    enter again. *)
Theorem enter_appends_and_leave_removes :
  forall (self : GContainerBase.t) (d : GDrawable.t),
    keyed (GContainerBase._objects self) ->
    (PyDict.contains (GContainerBase.key d) (GContainerBase._objects self)
     = false ->
     exists entered,
       GContainerBase.enter d self = (Ok tt, entered)
       /\ GContainerBase.obj_entries entered
          = GContainerBase.obj_entries self ++ [d]
       /\ keyed (GContainerBase._objects entered))
    /\ (PyDict.contains (GContainerBase.key d) (GContainerBase._objects self)
        = true ->
        exists left,
          GContainerBase.leave d self = (Ok tt, left)
          /\ GContainerBase.obj_entries left
             = filter (fun o => negb (String.eqb (GContainerBase.key d)
                                        (GContainerBase.key o)))
                 (GContainerBase.obj_entries self)
          /\ GContainerBase.__len__ left = GContainerBase.__len__ self - 1
          /\ PyDict.contains (GContainerBase.key d)
               (GContainerBase._objects left) = false
          /\ keyed (GContainerBase._objects left)).
Proof.
  intros self d Hk. split; intros Hc.
  - eexists. split; [now apply enter_absent|]. split.
    + unfold GContainerBase.obj_entries; simpl.
      now apply values_set_absent.
    + simpl. now apply enter_keeps_keyed.
  - eexists. split; [now apply leave_present|].
    unfold GContainerBase.obj_entries, GContainerBase.__len__, PyDict.len.
    simpl. split; [now apply values_del_keyed|]. split; [|split].
    + rewrite <- (length_del_present _ _ _ Hc). lia.
    + apply del_not_contains. apply Hk.
    + now apply leave_keeps_keyed.
Qed.

Lemma enter_appends_and_leave_removes_witness :
  (exists entered,
     GContainerBase.enter (square30 1005 6) row_scene = (Ok tt, entered)
     /\ GContainerBase.obj_entries entered
        = GContainerBase.obj_entries row_scene ++ [square30 1005 6]
     /\ keyed (GContainerBase._objects entered))
  /\ (exists left,
        GContainerBase.leave (square30 1001 2) row_scene = (Ok tt, left)
        /\ GContainerBase.obj_entries left
           = [square30 1000 1; square30 1002 3; square30 1003 4;
              square30 1004 5]).
Proof.
  assert (Hk : keyed (GContainerBase._objects row_scene)).
  { split; simpl.
    - repeat constructor; simpl; intuition discriminate.
    - repeat constructor. }
  split.
  - apply (enter_appends_and_leave_removes row_scene (square30 1005 6) Hk).
    reflexivity.
  - destruct (enter_appends_and_leave_removes row_scene (square30 1001 2) Hk)
      as [_ H].
    destruct (H eq_refl) as [left [E [Hl _]]].
    exists left. split; [exact E | exact Hl].
Defined.

(** ** Edges of [draw] *)

(** X14: [draw] on a container without members, of any class, returns
    having made one call, for the frame: white whatever the colour of the
    container's shape, over the rectangle of the container's position and
    size, with the border size of the shape; a rectangle when the shape is a
    [Square], an ellipse for every other kind.  No division is made, so a
    grid without members draws whatever its spacing. *)
Theorem draw_without_members :
  forall (cls : ContainerClass) (self : GContainerBase.t)
         (screen : pygame.Surface),
    GContainerBase.obj_entries self = [] ->
    let r := pygame.mkRect
               (fst (GContainerBase._position self))
               (snd (GContainerBase._position self))
               (fst (GContainerBase._size self))
               (snd (GContainerBase._size self)) in
    let border := GShape.border_size (GContainerBase._shape self) in
    draw cls self screen
    = (Ok tt,
       pygame.add_all screen
         [match GShape.shape_type (GContainerBase._shape self) with
          | Member GShapeType.Square =>
              pygame.draw_rect_call DefaultColors_White r border
          | _ => pygame.draw_ellipse_call DefaultColors_White r border
          end]).
Proof.
  intros cls self screen He r border.
  assert (Hl : PyDict.len (GContainerBase._objects self) = 0)
    by (rewrite len_obj_entries, He; reflexivity).
  assert (Hf : frame_call self
               = match GShape.shape_type (GContainerBase._shape self) with
                 | Member GShapeType.Square =>
                     pygame.draw_rect_call DefaultColors_White r border
                 | _ => pygame.draw_ellipse_call DefaultColors_White r border
                 end).
  { unfold frame_call, r, border.
    destruct (GContainerBase._position self), (GContainerBase._size self).
    destruct (GShape.shape_type _) as [[|]|]; reflexivity. }
  rewrite <- Hf. destruct cls; simpl draw.
  - rewrite row_draw_eq, He. reflexivity.
  - rewrite column_draw_eq, He. reflexivity.
  - rewrite grid_draw_eq, Hl. reflexivity.
Qed.

Lemma draw_without_members_witness :
  draw Row plain_row recording
  = (Ok tt,
     pygame.add_all recording
       [pygame.draw_rect_call DefaultColors_White
          (pygame.mkRect 7 9 100 50) 2]).
Proof.
  apply (draw_without_members Row plain_row recording). reflexivity.
Defined.

(** X15: [draw] on a grid with a member whose biggest size and spacing add
    up to zero raises [ZeroDivisionError] when it works out the number of
    columns, after the frame has been drawn and before any member is. *)
Theorem grid_draw_divides_by_zero :
  forall (self : GContainerBase.t) (screen : pygame.Surface),
    GContainerBase.obj_entries self <> [] ->
    GContainerBase.biggest_size self + GContainerBase._spacing self = 0 ->
    GcontainerGrid.draw self screen
    = (Raise ZeroDivisionError, pygame.add_all screen [frame_call self]).
Proof.
  intros self screen Hne Hz. rewrite grid_draw_eq, Hz.
  rewrite len_obj_entries.
  destruct (GContainerBase.obj_entries self); [now destruct Hne|].
  reflexivity.
Qed.

Lemma grid_draw_divides_by_zero_witness :
  GcontainerGrid.draw dot_grid recording
  = (Raise ZeroDivisionError,
     pygame.add_all recording [frame_call dot_grid]).
Proof.
  apply (grid_draw_divides_by_zero dot_grid recording);
    [discriminate | reflexivity].
Defined.

(** ** Cells of a grid *)

(** X16: in a grid that fills from a corner, with a biggest size and a
    spacing that are not negative, the cells of two different columns do not
    overlap from left to right, and the cells of two different chunks do not
    overlap from top to bottom: counting from the left or top edge the cell
    of the smaller index ends before the other begins, counting from the
    right or bottom edge it is the other way round. *)
Theorem grid_cells_do_not_overlap :
  forall (self : GContainerBase.t) (i i' j j' : Z),
    native_fill Grid (GContainerBase._fill_direction self) = true ->
    0 <= GContainerBase.biggest_size self ->
    0 <= GContainerBase._spacing self ->
    let b := GContainerBase.biggest_size self in
    (i < i' ->
     match GContainerBase._fill_direction self with
     | GFillDirection.TopLeft | GFillDirection.BottomLeft =>
         GcontainerGrid.x_l self b i + b <= GcontainerGrid.x_l self b i'
     | _ => GcontainerGrid.x_l self b i' + b <= GcontainerGrid.x_l self b i
     end)
    /\ (j < j' ->
        match GContainerBase._fill_direction self with
        | GFillDirection.TopLeft | GFillDirection.TopRight =>
            GcontainerGrid.y_l self b j + b <= GcontainerGrid.y_l self b j'
        | _ => GcontainerGrid.y_l self b j' + b <= GcontainerGrid.y_l self b j
        end).
Proof.
  intros self i i' j j' Hn Hb Hs b. fold b in Hb.
  unfold GcontainerGrid.x_l, GcontainerGrid.y_l.
  destruct (GContainerBase._position self) as [x y].
  destruct (GContainerBase._size self) as [w h].
  destruct (GContainerBase._fill_direction self); try discriminate Hn;
    split; intros Hlt; nia.
Qed.

Lemma grid_cells_do_not_overlap_witness :
  GcontainerGrid.x_l grid_of_five 30 0 + 30 <= GcontainerGrid.x_l grid_of_five 30 1
  /\ GcontainerGrid.y_l grid_of_five 30 1 + 30 <= GcontainerGrid.y_l grid_of_five 30 2.
Proof.
  assert (Hb : 0 <= GContainerBase.biggest_size grid_of_five)
    by (vm_compute; discriminate).
  assert (Hs : 0 <= GContainerBase._spacing grid_of_five)
    by (simpl; lia).
  assert (H01 : 0 < 1) by lia. assert (H12 : 1 < 2) by lia.
  destruct (grid_cells_do_not_overlap grid_of_five 0 1 1 2 eq_refl Hb Hs)
    as [Hx Hy].
  split; [exact (Hx H01) | exact (Hy H12)].
Defined.

(** ** The size of a slot *)

(** X17: in a container with a member, the slot size [draw] works with, the
    head of the member sizes sorted in descending order, is the size of one
    of the members and no member is bigger; so it is the same in whatever
    order the members entered. *)
Theorem biggest_size_is_the_greatest_member_size :
  forall (self : GContainerBase.t),
    GContainerBase.obj_entries self <> [] ->
    (exists o, In o (GContainerBase.obj_entries self)
               /\ GContainerBase.biggest_size self
                  = GShape.size (GDrawable.shape o))
    /\ (forall o, In o (GContainerBase.obj_entries self) ->
                  GShape.size (GDrawable.shape o)
                  <= GContainerBase.biggest_size self)
    /\ (forall other : GContainerBase.t,
          (forall o, In o (GContainerBase.obj_entries other)
                     <-> In o (GContainerBase.obj_entries self)) ->
          GContainerBase.biggest_size other
          = GContainerBase.biggest_size self).
Proof.
  intros self Hne.
  destruct (biggest_size_is_max self Hne) as [[o [Ho E]] Hmax].
  split; [now exists o|]. split; [exact Hmax|].
  intros other Hsame.
  assert (Hne' : GContainerBase.obj_entries other <> []).
  { intros E'. apply Hsame in Ho. rewrite E' in Ho. destruct Ho. }
  destruct (biggest_size_is_max other Hne') as [[o' [Ho' E']] Hmax'].
  apply Hsame in Ho'. apply Hsame in Ho.
  specialize (Hmax o' Ho'). specialize (Hmax' o Ho). lia.
Qed.

Lemma biggest_size_is_the_greatest_member_size_witness :
  GShape.size (GDrawable.shape (square30 1001 2))
  <= GContainerBase.biggest_size row_of_three.
Proof.
  apply (biggest_size_is_the_greatest_member_size row_of_three);
    [discriminate | simpl; right; left; reflexivity].
Defined.
